(** * SecureVote: the poll list, the vote workflow and the session handler

    A shallow embedding of [src/components/PollList.tsx] (the [PollList]
    component: [fetchPolls], [handleVote] and the render function) and of the
    [onAuthStateChange] handler of [App].

    Asynchronous functions are written in a small task monad: a task is a
    tree of synchronous actions ([setState] calls, toasts, console output)
    and of awaited backend requests.  Tasks are given two semantics: a run
    to completion against a backend, and an event loop in which the
    resumption segments of several tasks interleave, as the JavaScript
    runtime schedules them. *)

From Stdlib Require Import List String ZArith Bool Lia.
Import ListNotations.

Local Open Scope string_scope.
Local Open Scope list_scope.

(** ** JavaScript values *)

(** Truthiness of a [string]: only the empty string is falsy. *)
Definition truthy_string (s : string) : bool :=
  match s with
  | EmptyString => false
  | String _ _ => true
  end.

(** Truthiness of a [string | null]: [null] and the empty string are falsy. *)
Definition truthy (v : option string) : bool :=
  match v with
  | None => false
  | Some s => truthy_string s
  end.

(** Strict equality [a === b] of a [string | null] with a [string]. *)
Definition strict_eq (a : option string) (b : string) : bool :=
  match a with
  | None => false
  | Some s => String.eqb s b
  end.

(** [x || []] on a nullable array: an array, even an empty one, is truthy. *)
Definition or_empty {A : Type} (x : option (list A)) : list A :=
  match x with
  | Some l => l
  | None => []
  end.

(** [x ?? d] *)
Definition nullish {A : Type} (x : option A) (d : A) : A :=
  match x with
  | Some a => a
  | None => d
  end.

(** ** Data model *)

(** Rows of the [votes], [options] and [polls] tables, nested as the
    composite read of [fetchPolls] returns them.  Identifiers are strings.
    A timestamp column is kept as the time value of [new Date(column)]:
    milliseconds since the epoch, [None] for an invalid date (whose time
    value is [NaN], and every comparison with [NaN] is false). *)

Record Vote : Type := mkVote {
  vote_id : string;
  vote_poll_id : string;
  vote_option_id : string;
  vote_user_id : string
}.

Record PollOption : Type := mkOption {
  option_id : string;
  option_poll_id : string;
  option_text : string;
  option_votes : list Vote
}.

Record Poll : Type := mkPoll {
  poll_id : string;
  poll_title : string;
  poll_description : string;
  poll_ends_at : option Z;
  poll_is_active : bool;
  poll_created_at : Z;
  poll_options : list PollOption
}.

Record User : Type := mkUser {
  user_id : string;
  user_email : string
}.

(** ** Results projection (the body of [polls.map] in the render) *)

(** [option.votes.some((vote) => vote.user_id === user.id)] *)
Definition votedFor (u : User) (o : PollOption) : bool :=
  existsb (fun v => String.eqb (vote_user_id v) (user_id u)) (option_votes o).

(** [user && poll.options.some(...)] *)
Definition hasVoted (user : option User) (poll : Poll) : bool :=
  match user with
  | None => false
  | Some u => existsb (votedFor u) (poll_options poll)
  end.

(** [user && option.votes.some(...)] *)
Definition hasUserVotedForThis (user : option User) (o : PollOption) : bool :=
  match user with
  | None => false
  | Some u => votedFor u o
  end.

(** [new Date(poll.ends_at) > new Date()]; [now] is the time value of
    [new Date()]. *)
Definition endsAfter (now : Z) (poll : Poll) : bool :=
  match poll_ends_at poll with
  | Some t => Z.ltb now t
  | None => false
  end.

(** [new Date(poll.ends_at) > new Date() && poll.is_active] *)
Definition isPollActive (now : Z) (poll : Poll) : bool :=
  endsAfter now poll && poll_is_active poll.

(** The chart input: one [{name, votes}] entry per option. *)
Definition data (poll : Poll) : list (string * nat) :=
  map (fun o => (option_text o, List.length (option_votes o))) (poll_options poll).

(** The end timestamp of a poll is strictly in the future. *)
Definition ends_in_future (now : Z) (poll : Poll) : Prop :=
  exists t, poll_ends_at poll = Some t /\ (now < t)%Z.

(** ** The session store *)

(** Modelled from the spec: [store/authStore] is not among the sources.
    Section 4.1 of the specification: the store holds the current user
    identity (or absent) and the administrator boolean, with the mutators
    [setUser], [setIsAdmin] and [reset], the last of which clears both to
    the signed-out state. *)
Record AuthStore : Type := mkAuthStore {
  user : option User;
  isAdmin : bool
}.

Definition signedOut : AuthStore := mkAuthStore None false.

Definition setUser (u : User) (s : AuthStore) : AuthStore :=
  mkAuthStore (Some u) (isAdmin s).

Definition setIsAdmin (b : bool) (s : AuthStore) : AuthStore :=
  mkAuthStore (user s) b.

Definition reset (s : AuthStore) : AuthStore := signedOut.

(** ** The state of the [PollList] component *)

(** The four [useState] cells, with their initial values. *)
Record PollListState : Type := mkState {
  polls : list Poll;
  loading : bool;
  error : option string;
  votingInProgress : option string
}.

Definition initialState : PollListState := mkState [] true None None.

Record Frontend : Type := mkFrontend {
  store : AuthStore;
  component : PollListState
}.

(** ** Synchronous actions *)

Inductive Action : Type :=
| SetPolls (l : list Poll)
| SetLoading (b : bool)
| SetError (e : option string)
| SetVotingInProgress (m : option string)
| StoreSetUser (u : User)
| StoreSetIsAdmin (b : bool)
| StoreReset
| ToastError (msg : string)
| ToastSuccess (msg : string)
| ConsoleError (msg : string).

Definition perform (a : Action) (f : Frontend) : Frontend :=
  let st := component f in
  match a with
  | SetPolls l =>
      mkFrontend (store f) (mkState l (loading st) (error st) (votingInProgress st))
  | SetLoading b =>
      mkFrontend (store f) (mkState (polls st) b (error st) (votingInProgress st))
  | SetError e =>
      mkFrontend (store f) (mkState (polls st) (loading st) e (votingInProgress st))
  | SetVotingInProgress m =>
      mkFrontend (store f) (mkState (polls st) (loading st) (error st) m)
  | StoreSetUser u => mkFrontend (setUser u (store f)) st
  | StoreSetIsAdmin b => mkFrontend (setIsAdmin b (store f)) st
  | StoreReset => mkFrontend (reset (store f)) st
  | ToastError _ | ToastSuccess _ | ConsoleError _ => f
  end.

(** ** Backend requests *)

(** The [{data, error}] pair a request resolves to: [error] is set, and the
    caller throws it, or [data] holds the result. *)
Inductive Response (R : Type) : Type :=
| Data (d : R)
| Failure (e : string).

Arguments Data {R} d.
Arguments Failure {R} e.

Record Profile : Type := mkProfile {
  is_admin : option bool
}.

(** The four queries of the two files, indexed by the type of their [data]:
    the composite read of the polls, the [maybeSingle] lookup of a vote by
    (poll, user), the insert of a vote, the [single] read of a profile. *)
Inductive Request : Type -> Type :=
| SelectPolls : Request (option (list Poll))
| SelectVote (pollId userId : string) : Request (option string)
| InsertVote (pollId optionId userId : string) : Request unit
| SelectProfile (userId : string) : Request (option Profile).

(** ** Tasks: the bodies of the asynchronous functions *)

Inductive Task (A : Type) : Type :=
| Ret (a : A)
| Throw (e : string)
| Do (a : Action) (k : Task A)
| Await {R : Type} (q : Request R) (k : Response R -> Task A).

Arguments Ret {A} a.
Arguments Throw {A} e.
Arguments Do {A} a k.
Arguments Await {A R} q k.

Fixpoint bind {A B : Type} (t : Task A) (f : A -> Task B) : Task B :=
  match t with
  | Ret a => f a
  | Throw e => Throw e
  | Do a k => Do a (bind k f)
  | Await q k => Await q (fun r => bind (k r) f)
  end.

(** [try { t } catch (err) { h err }] *)
Fixpoint try_catch {A : Type} (t : Task A) (h : string -> Task A) : Task A :=
  match t with
  | Ret a => Ret a
  | Throw e => h e
  | Do a k => Do a (try_catch k h)
  | Await q k => Await q (fun r => try_catch (k r) h)
  end.

(** [try { t } finally { f }]: [f] runs however [t] ends, also on an early
    [return], and the outcome of [t] is kept. *)
Fixpoint try_finally {A : Type} (t : Task A) (f : Task unit) : Task A :=
  match t with
  | Ret a => bind f (fun _ => Ret a)
  | Throw e => bind f (fun _ => Throw e)
  | Do a k => Do a (try_finally k f)
  | Await q k => Await q (fun r => try_finally (k r) f)
  end.

Definition act (a : Action) : Task unit := Do a (Ret tt).

Definition await {R : Type} (q : Request R) : Task (Response R) :=
  Await q (fun r => Ret r).

Declare Scope task_scope.
Delimit Scope task_scope with task.
Bind Scope task_scope with Task.

Notation "x <- t ;; k" := (bind t (fun x => k))
  (at level 61, t at next level, right associativity) : task_scope.
Notation "t ;; k" := (bind t (fun _ => k))
  (at level 61, right associativity) : task_scope.

Local Open Scope task_scope.

(** ** [PollList]: [fetchPolls] *)

Definition fetchPolls : Task unit :=
  try_finally
    (try_catch
       (act (SetLoading true) ;;
        act (SetError None) ;;
        r <- await SelectPolls ;;
        match r with
        | Failure pollsError => Throw pollsError
        | Data pollsData => act (SetPolls (or_empty pollsData))
        end)
       (fun err =>
          act (ConsoleError "Error fetching polls:") ;;
          act (SetError (Some "Failed to load polls. Please try again."))))
    (act (SetLoading false)).

(** ** [PollList]: [handleVote] *)

(** [user] and [votingInProgress] are the values the closure of the current
    render holds. *)
Definition handleVote (user : option User) (votingInProgress : option string)
    (pollId optionId : string) : Task unit :=
  match user with
  | None => act (ToastError "Please sign in to vote")
  | Some u =>
    if truthy votingInProgress then Ret tt
    else
      try_finally
        (try_catch
           (act (SetVotingInProgress (Some pollId)) ;;
            r <- await (SelectVote pollId (user_id u)) ;;
            match r with
            | Failure checkError => Throw checkError
            | Data (Some existingVote) =>
                act (ToastError "You have already voted on this poll")
            | Data None =>
                r' <- await (InsertVote pollId optionId (user_id u)) ;;
                match r' with
                | Failure voteError => Throw voteError
                | Data _ =>
                    act (ToastSuccess "Vote recorded successfully!") ;;
                    fetchPolls
                end
            end)
           (fun err =>
              act (ConsoleError "Error voting:") ;;
              act (ToastError "Failed to record vote. Please try again.")))
        (act (SetVotingInProgress None))
  end.

(** ** [App]: the [onAuthStateChange] handler *)

Record AuthSession : Type := mkSession {
  session_user : option User
}.

(** [session?.user] *)
Definition sessionUser (session : option AuthSession) : option User :=
  match session with
  | Some s => session_user s
  | None => None
  end.

(** [profile?.is_admin ?? false] *)
Definition profileIsAdmin (profile : option Profile) : bool :=
  nullish (match profile with Some p => is_admin p | None => None end) false.

Definition onAuthStateChange (event : string) (session : option AuthSession)
    : Task unit :=
  if String.eqb event "SIGNED_OUT" then act StoreReset
  else
    match sessionUser session with
    | Some u =>
        act (StoreSetUser u) ;;
        try_catch
          (r <- await (SelectProfile (user_id u)) ;;
           match r with
           | Failure profileError => Throw profileError
           | Data profile => act (StoreSetIsAdmin (profileIsAdmin profile))
           end)
          (fun err =>
             act (ConsoleError "Profile fetch error:") ;;
             act StoreReset ;;
             act (ToastError "Failed to load user profile"))
    | None => act StoreReset
    end.

(** ** [PollList]: the render function *)

Definition present {A : Type} (x : option A) : bool :=
  match x with
  | Some _ => true
  | None => false
  end.

(** The three class names of an option button. *)
Inductive ButtonStyle : Type :=
| Selected
| Hoverable
| Dimmed.

(** An option button: its key, the arguments of the [handleVote] call of its
    [onClick], its [disabled] attribute, its text and the tally span, when
    that is rendered. *)
Record OptionButton : Type := mkButton {
  button_key : string;
  button_poll : string;
  button_option : string;
  button_disabled : bool;
  button_style : ButtonStyle;
  button_text : string;
  button_tally : option nat
}.

Record PollCard : Type := mkCard {
  card_key : string;
  card_title : string;
  card_description : string;
  card_chart : option (list (string * nat));
  card_buttons : list OptionButton;
  card_active : bool;
  card_ends : option Z
}.

Inductive Rendered : Type :=
| Spinner (message : string)
| ErrorPanel (message label : string) (onClick : Task unit)
| NoPolls
| PollGrid (cards : list PollCard).

(** [!user || hasVoted || !isPollActive || votingInProgress === poll.id] *)
Definition disabled (now : Z) (s : AuthStore) (st : PollListState)
    (poll : Poll) : bool :=
  negb (present (user s)) || hasVoted (user s) poll
  || negb (isPollActive now poll)
  || strict_eq (votingInProgress st) (poll_id poll).

(** [isAdmin || hasVoted] *)
Definition resultsVisible (s : AuthStore) (poll : Poll) : bool :=
  isAdmin s || hasVoted (user s) poll.

Definition renderOption (now : Z) (s : AuthStore) (st : PollListState)
    (poll : Poll) (o : PollOption) : OptionButton :=
  mkButton (option_id o) (poll_id poll) (option_id o)
    (disabled now s st poll)
    (if hasUserVotedForThis (user s) o then Selected
     else if isPollActive now poll && present (user s) then Hoverable
     else Dimmed)
    (option_text o)
    (if resultsVisible s poll then Some (List.length (option_votes o))
     else None).

Definition renderPoll (now : Z) (s : AuthStore) (st : PollListState)
    (poll : Poll) : PollCard :=
  mkCard (poll_id poll) (poll_title poll) (poll_description poll)
    (if resultsVisible s poll && Nat.ltb 0 (List.length (data poll))
     then Some (data poll) else None)
    (map (renderOption now s st poll) (poll_options poll))
    (isPollActive now poll)
    (poll_ends_at poll).

Definition render (now : Z) (s : AuthStore) (st : PollListState) : Rendered :=
  if loading st then Spinner "Loading polls..."
  else
    match error st with
    | Some message =>
        if truthy_string message
        then ErrorPanel message "Try Again" fetchPolls
        else match polls st with
             | [] => NoPolls
             | _ => PollGrid (map (renderPoll now s st) (polls st))
             end
    | None =>
        match polls st with
        | [] => NoPolls
        | _ => PollGrid (map (renderPoll now s st) (polls st))
        end
    end.

(** A click on an option button: a disabled button dispatches nothing, an
    enabled one calls its [onClick]. *)
Definition click (s : AuthStore) (st : PollListState) (b : OptionButton)
    : Task unit :=
  if button_disabled b then Ret tt
  else handleVote (user s) (votingInProgress st)
         (button_poll b) (button_option b).

(** ** Runs to completion *)

(** What a run leaves behind, in order: the actions performed and the
    requests sent, each with the response it resolved to. *)
Inductive Event : Type :=
| Performed (a : Action)
| Requested {R : Type} (q : Request R) (r : Response R).

Inductive Outcome (A : Type) : Type :=
| Returned (a : A)
| Uncaught (e : string).

Arguments Returned {A} a.
Arguments Uncaught {A} e.

Record Run (B A : Type) : Type := mkRun {
  outcome : Outcome A;
  backend_after : B;
  frontend_after : Frontend;
  events : list Event
}.

Arguments mkRun {B A}.
Arguments outcome {B A}.
Arguments backend_after {B A}.
Arguments frontend_after {B A}.
Arguments events {B A}.

Section RunToCompletion.

(** A backend: a state and the way it answers a request. *)
Variable B : Type.
Variable respond : forall R : Type, Request R -> B -> Response R * B.

Fixpoint run {A : Type} (t : Task A) (b : B) (f : Frontend) : Run B A :=
  match t with
  | Ret a => mkRun (Returned a) b f []
  | Throw e => mkRun (Uncaught e) b f []
  | Do a k =>
      let rest := run k b (perform a f) in
      mkRun (outcome rest) (backend_after rest) (frontend_after rest)
        (Performed a :: events rest)
  | Await q k =>
      let answer := respond _ q b in
      let rest := run (k (fst answer)) (snd answer) f in
      mkRun (outcome rest) (backend_after rest) (frontend_after rest)
        (Requested q (fst answer) :: events rest)
  end.

End RunToCompletion.

Arguments run {B} respond {A} t b f.

(** Classifiers of events. *)

Definition isRequest (e : Event) : bool :=
  match e with
  | Requested _ _ => true
  | Performed _ => false
  end.

Definition isInsert (e : Event) : bool :=
  match e with
  | Requested (InsertVote _ _ _) _ => true
  | _ => false
  end.

Definition isFetch (e : Event) : bool :=
  match e with
  | Requested SelectPolls _ => true
  | _ => false
  end.

(** The existence check for (poll, user) found a vote. *)
Definition foundVote (pollId userId : string) (e : Event) : bool :=
  match e with
  | Requested q r =>
      match q in Request R return Response R -> bool with
      | SelectVote p u =>
          fun r => match r with
                   | Data (Some _) => String.eqb p pollId && String.eqb u userId
                   | _ => false
                   end
      | _ => fun _ => false
      end r
  | Performed _ => false
  end.

(** A request succeeded. *)
Definition succeeded (e : Event) : bool :=
  match e with
  | Requested _ (Data _) => true
  | _ => false
  end.

Definition isToastError (msg : string) (e : Event) : bool :=
  match e with
  | Performed (ToastError m) => String.eqb m msg
  | _ => false
  end.

(** ** The event loop *)

(** A task runs until its next [await]; what it does until then is one
    segment, and no other code runs in between.  The component is
    re-rendered between segments, from the state the segment left, so that
    a click runs the [handleVote] of the latest render.

    This loop is the life of one instance of [PollList], from the moment
    it is mounted: its four cells, the store it reads, and the tasks that
    it and the store handler have in flight.  [App] unmounts the instance
    when the store loses its user and mounts a new one when a user is
    back; that is the life of the page, given further down ([pageStep]),
    which runs the steps of this loop for the instance that is mounted.
    Here the instance is not taken away; an invariant of this loop that
    is about the cells of the instance carries over to the instance on
    the page ([pageReachable_lifts]). *)

Inductive Paused : Type :=
| Finished
| Crashed (e : string)
| Waiting {R : Type} (q : Request R) (k : Response R -> Task unit).

Record Segment : Type := mkSegment {
  segment_frontend : Frontend;
  segment_actions : list Action;
  segment_paused : Paused
}.

Fixpoint segment (t : Task unit) (f : Frontend) : Segment :=
  match t with
  | Ret _ => mkSegment f [] Finished
  | Throw e => mkSegment f [] (Crashed e)
  | Do a k =>
      let rest := segment k (perform a f) in
      mkSegment (segment_frontend rest) (a :: segment_actions rest)
        (segment_paused rest)
  | Await q k => mkSegment f [] (Waiting q k)
  end.

(** The function a suspended task belongs to. *)
Inductive Kind : Type :=
| VoteSubmission
| PollFetch
| AuthChange.

Definition isVoteSubmission (k : Kind) : bool :=
  match k with
  | VoteSubmission => true
  | _ => false
  end.

(** A task waiting for the response to its request. *)
Inductive Suspended : Type :=
| Suspend (kind : Kind) {R : Type} (q : Request R)
    (k : Response R -> Task unit).

Definition kindOf (s : Suspended) : Kind :=
  match s with
  | Suspend kind _ _ => kind
  end.

(** The client: the store and one instance of [PollList], the tasks of the
    instance and of the store handler in flight, and what has happened so
    far. *)
Record Client : Type := mkClient {
  ui : Frontend;
  outstanding : list Suspended;
  history : list Event
}.

Definition initialClient : Client :=
  mkClient (mkFrontend signedOut initialState) [] [].

(** The vote submissions of the instance in flight. *)
Definition submissions (c : Client) : list Suspended :=
  filter (fun s => isVoteSubmission (kindOf s)) (outstanding c).

(** Start (or resume) a task: run its next segment. *)
Definition schedule (kind : Kind) (t : Task unit) (c : Client) : Client :=
  let sg := segment t (ui c) in
  mkClient (segment_frontend sg)
    (outstanding c ++
       match segment_paused sg with
       | Waiting q k => [Suspend kind q k]
       | _ => []
       end)
    (history c ++ map Performed (segment_actions sg)).

Definition remove_nth {A : Type} (n : nat) (l : list A) : list A :=
  firstn n l ++ skipn (S n) l.

(** The way the backend answers, whatever the request. *)
Definition Oracle : Type := forall R : Type, Request R -> Response R.

(** What the outside world does to the client. *)
Inductive Input : Type :=
| Mount
| ChangeNotification
| ClickTryAgain (now : Z)
| ClickOption (now : Z) (card button : nat)
| AuthStateChange (event : string) (session : option AuthSession)
| Resolve (n : nat) (answer : Oracle).

Definition step (i : Input) (c : Client) : Client :=
  match i with
  | Mount | ChangeNotification => schedule PollFetch fetchPolls c
  | ClickTryAgain now =>
      match render now (store (ui c)) (component (ui c)) with
      | ErrorPanel _ _ onClick => schedule PollFetch onClick c
      | _ => c
      end
  | ClickOption now i j =>
      match render now (store (ui c)) (component (ui c)) with
      | PollGrid cards =>
          match nth_error cards i with
          | Some card =>
              match nth_error (card_buttons card) j with
              | Some b =>
                  if button_disabled b then c
                  else schedule VoteSubmission
                         (handleVote (user (store (ui c)))
                            (votingInProgress (component (ui c)))
                            (button_poll b) (button_option b)) c
              | None => c
              end
          | None => c
          end
      | _ => c
      end
  | AuthStateChange event session =>
      schedule AuthChange (onAuthStateChange event session) c
  | Resolve n answer =>
      match nth_error (outstanding c) n with
      | Some (Suspend kind q k) =>
          let r := answer _ q in
          schedule kind (k r)
            (mkClient (ui c) (remove_nth n (outstanding c))
               (history c ++ [Requested q r]))
      | None => c
      end
  end.

Definition steps (inputs : list Input) (c : Client) : Client :=
  fold_left (fun c i => step i c) inputs c.

Inductive reachable : Client -> Prop :=
| reachable_initial : reachable initialClient
| reachable_step (i : Input) (c : Client) :
    reachable c -> reachable (step i c).

(** ** Properties of the resumptions of a task *)

(** A property of the task that resumes after a request got its response. *)
Definition Resumption : Type :=
  forall R : Type, Request R -> Response R -> Task unit -> Prop.

(** [P] holds each time the task resumes, whatever the responses. *)
Fixpoint every_resumption (P : Resumption) (t : Task unit) : Prop :=
  match t with
  | Ret _ | Throw _ => True
  | Do _ k => every_resumption P k
  | Await q k => forall r, P _ q r (k r) /\ every_resumption P (k r)
  end.

Definition resumable (P : Resumption) (s : Suspended) : Prop :=
  match s with
  | Suspend _ q k => forall r, P _ q r (k r) /\ every_resumption P (k r)
  end.

(** The segment that [t] runs next keeps [I]. *)
Definition keeps (I : Frontend -> Prop) (t : Task unit) : Prop :=
  forall f, I f -> I (segment_frontend (segment t f)).

(** What is asked of a task when it starts: its first segment keeps [I]
    and each of its resumptions satisfies [P]. *)
Definition sound (I : Frontend -> Prop) (P : Resumption) (t : Task unit)
    : Prop :=
  keeps I t /\ every_resumption P t.

(** [I] holds of the state, and [P] of what each task in flight does next. *)
Definition invariant (I : Frontend -> Prop) (P : Resumption) (c : Client)
    : Prop :=
  I (ui c) /\ Forall (resumable P) (outstanding c).

Definition isSelectPolls {R : Type} (q : Request R) : bool :=
  match q with
  | SelectPolls => true
  | _ => false
  end.

Definition failed {R : Type} (r : Response R) : bool :=
  match r with
  | Failure _ => true
  | Data _ => false
  end.

(** The message of [fetchPolls] on a failure. *)
Definition failedToLoad : string := "Failed to load polls. Please try again.".

(** The error cell holds nothing but the message of [fetchPolls], and only
    while nothing is loading. *)
Definition errorSettled (f : Frontend) : Prop :=
  forall m, error (component f) = Some m ->
            m = failedToLoad /\ loading (component f) = false.

(** The state a failed fetch leaves. *)
Definition fetchFailed (f : Frontend) : Prop :=
  error (component f) = Some failedToLoad /\ loading (component f) = false.

(** Each resumption keeps [errorSettled], and the one that receives the
    failure of the composite read leaves [fetchFailed]. *)
Definition surfacesFailure : Resumption :=
  fun R q r t =>
    keeps errorSettled t
    /\ (isSelectPolls q = true -> failed r = true ->
        forall f, fetchFailed (segment_frontend (segment t f))).

(** The request the [n]-th task in flight waits for is the composite read
    and [answer] fails it. *)
Definition failsFetch (c : Client) (n : nat) (answer : Oracle) : bool :=
  match nth_error (outstanding c) n with
  | Some (Suspend _ q _) => isSelectPolls q && failed (answer _ q)
  | None => false
  end.

(** The [data] of a successful composite read. *)
Definition delivered {R : Type} (q : Request R) (r : Response R)
    : option (option (list Poll)) :=
  match q in Request R return Response R -> option (option (list Poll)) with
  | SelectPolls => fun r => match r with
                            | Data d => Some d
                            | Failure _ => None
                            end
  | _ => fun _ => None
  end r.

(** The [data] of the composite read that the input [i] resolves, if it
    resolves one with success. *)
Definition deliveredBy (i : Input) (c : Client)
    : option (option (list Poll)) :=
  match i with
  | Resolve n answer =>
      match nth_error (outstanding c) n with
      | Some (Suspend _ q _) => delivered q (answer _ q)
      | None => None
      end
  | _ => None
  end.

(** The next segment leaves the poll collection as it was. *)
Definition keepsPolls (t : Task unit) : Prop :=
  forall f,
    polls (component (segment_frontend (segment t f))) = polls (component f).

(** A resumption leaves the poll collection as it was, or replaces it by
    the [data] just delivered, by the empty list when that is null. *)
Definition replacesPolls : Resumption :=
  fun R q r t =>
    forall f,
      polls (component (segment_frontend (segment t f))) = polls (component f)
      \/ exists d, delivered q r = Some d
                   /\ polls (component (segment_frontend (segment t f)))
                      = or_empty d.

(** ** The in-flight marker in the event loop *)

Definition marker (f : Frontend) : option string :=
  votingInProgress (component f).

(** What the next segment of a task of the given kind does to the marker:
    a vote submission that ends has cleared it; in every other case it is
    left as it was. *)
Definition marksDone (kind : Kind) (t : Task unit) : Prop :=
  forall f,
    match segment_paused (segment t f) with
    | Waiting _ _ => marker (segment_frontend (segment t f)) = marker f
    | _ =>
        if isVoteSubmission kind
        then marker (segment_frontend (segment t f)) = None
        else marker (segment_frontend (segment t f)) = marker f
    end.

(** A task in flight treats the marker so each time it resumes. *)
Definition disciplined (s : Suspended) : Prop :=
  resumable (fun _ _ _ t => marksDone (kindOf s) t) s.

(** No poll the component holds has the empty string as its identifier. *)
Definition wellKeyed (c : Client) : Prop :=
  Forall (fun p => truthy_string (poll_id p) = true)
    (polls (component (ui c))).

(** The marker is null whenever no vote submission of the instance is in
    flight; and, when [strict], at most one is, and the marker is truthy
    while it is. *)
Definition singleFlight (strict : bool) (c : Client) : Prop :=
  Forall disciplined (outstanding c)
  /\ (submissions c = [] -> marker (ui c) = None)
  /\ (strict = true ->
      List.length (submissions c) <= 1
      /\ (submissions c <> [] -> truthy (marker (ui c)) = true)).

(** ** The backend *)

(** A backend that answers from a fixed oracle and keeps no state. *)
Definition stateless (answer : Oracle)
    : forall R : Type, Request R -> unit -> Response R * unit :=
  fun R q _ => (answer R q, tt).

(** Modelled from the spec: the hosted backend; its schema and its client
    library are not among the sources.  Section 3 of the specification
    gives the records: a poll row. *)
Record PollRow : Type := mkPollRow {
  row_id : string;
  row_title : string;
  row_description : string;
  row_ends_at : option Z;
  row_is_active : bool;
  row_created_at : Z
}.

(** Modelled from the spec: the hosted backend (section 3): an option row,
    which belongs to exactly one poll. *)
Record OptionRow : Type := mkOptionRow {
  orow_id : string;
  orow_poll_id : string;
  orow_text : string
}.

(** Modelled from the spec: the hosted backend (sections 3 and 6): the
    tables the client reads and writes; a vote row is a [Vote]. *)
Record Database : Type := mkDatabase {
  db_polls : list PollRow;
  db_options : list OptionRow;
  db_votes : list Vote;
  db_profiles : list (string * Profile)
}.

(** Modelled from the spec: the hosted backend (section 6), the nested
    relation expansion: the votes of an option. *)
Definition votesOf (db : Database) (o : OptionRow) : list Vote :=
  filter (fun v => String.eqb (vote_option_id v) (orow_id o)) (db_votes db).

(** Modelled from the spec: the hosted backend (section 6), the nested
    relation expansion: the options of a poll, each with its votes. *)
Definition optionsOf (db : Database) (p : PollRow) : list PollOption :=
  map (fun o => mkOption (orow_id o) (orow_poll_id o) (orow_text o)
                  (votesOf db o))
    (filter (fun o => String.eqb (orow_poll_id o) (row_id p)) (db_options db)).

(** Modelled from the spec: the hosted backend (section 4.3), the order of
    the composite read: by creation time, descending. *)
Fixpoint insertNewest (p : PollRow) (l : list PollRow) : list PollRow :=
  match l with
  | [] => [p]
  | q :: l' =>
      if Z.ltb (row_created_at q) (row_created_at p) then p :: l
      else q :: insertNewest p l'
  end.

(** Modelled from the spec: the hosted backend (section 4.3): the polls,
    newest first. *)
Definition newestFirst (l : list PollRow) : list PollRow :=
  fold_right insertNewest [] l.

(** Modelled from the spec: the hosted backend (sections 4.3 and 6): the
    composite read, every poll with its options and their votes. *)
Definition fetchAll (db : Database) : list Poll :=
  map (fun p => mkPoll (row_id p) (row_title p) (row_description p)
                  (row_ends_at p) (row_is_active p) (row_created_at p)
                  (optionsOf db p))
    (newestFirst (db_polls db)).

(** Modelled from the spec: the hosted backend (section 6): the
    single-row-or-absent lookup of a vote by (poll, user). *)
Definition findVote (db : Database) (pollId userId : string) : option Vote :=
  find (fun v => String.eqb (vote_poll_id v) pollId
                 && String.eqb (vote_user_id v) userId) (db_votes db).

(** Modelled from the spec: the hosted backend (section 6): the insert of a
    vote row. *)
Definition addVote (db : Database) (v : Vote) : Database :=
  mkDatabase (db_polls db) (db_options db) (db_votes db ++ [v])
    (db_profiles db).

(** Modelled from the spec: the hosted backend: the database, what the
    network will do to the coming requests ([true]: the request fails) and
    the identifiers the backend will hand out. *)
Record Server : Type := mkServer {
  database : Database;
  outages : list bool;
  identifiers : list string
}.

(** Modelled from the spec: the hosted backend (section 6).  A request the
    network drops fails and changes nothing.  The insert fails when the
    user has a vote on the poll already (the uniqueness constraint) and
    succeeds otherwise; the read of a profile fails when there is none. *)
Definition serve (R : Type) (q : Request R) (sv : Server)
    : Response R * Server :=
  let db := database sv in
  let next := mkServer db (tl (outages sv)) (identifiers sv) in
  match outages sv with
  | true :: _ => (Failure "network error", next)
  | _ =>
      match q in Request R return Response R * Server with
      | SelectPolls => (Data (Some (fetchAll db)), next)
      | SelectVote pollId userId =>
          (Data (option_map vote_id (findVote db pollId userId)), next)
      | InsertVote pollId optionId userId =>
          match findVote db pollId userId with
          | Some _ => (Failure "duplicate key value", next)
          | None =>
              (Data tt,
               mkServer
                 (addVote db (mkVote (hd "" (identifiers sv)) pollId optionId
                                userId))
                 (tl (outages sv)) (tl (identifiers sv)))
          end
      | SelectProfile userId =>
          match find (fun p => String.eqb (fst p) userId) (db_profiles db) with
          | Some p => (Data (Some (snd p)), next)
          | None => (Failure "no rows returned", next)
          end
      end
  end.

(** One more vote for the option [optionId], and nothing else changed. *)
Definition bumped (optionId : string) (o o' : PollOption) : Prop :=
  option_id o' = option_id o
  /\ option_text o' = option_text o
  /\ List.length (option_votes o') =
     List.length (option_votes o)
     + (if String.eqb (option_id o) optionId then 1 else 0).

Definition oneMoreVote (optionId : string) (p p' : Poll) : Prop :=
  poll_id p' = poll_id p
  /\ Forall2 (bumped optionId) (poll_options p) (poll_options p').

Definition reflectsVote (optionId : string) (before after : list Poll) : Prop :=
  Forall2 (oneMoreVote optionId) before after.

(** [handleVote] as the current render holds it. *)
Definition invoke (f : Frontend) (pollId optionId : string) : Task unit :=
  handleVote (user (store f)) (votingInProgress (component f)) pollId optionId.

(** ** Sample data *)

Definition alice : User := mkUser "alice" "alice@example.org".

Definition aliceSignedIn : AuthStore := mkAuthStore (Some alice) false.

(** The poll "Favorite color" with the options Red and Blue, and no vote. *)
Definition colours : Database :=
  mkDatabase
    [ mkPollRow "p1" "Favorite color" "Pick one" (Some 2000%Z) true 10%Z ]
    [ mkOptionRow "red" "p1" "Red"; mkOptionRow "blue" "p1" "Blue" ]
    []
    [ ("alice", mkProfile (Some false)) ].

(** The same, after alice voted for Red. *)
Definition coloursVoted : Database :=
  addVote colours (mkVote "v1" "p1" "red" "alice").

Definition reliable (db : Database) : Server := mkServer db [] ["v7"; "v8"].

(** Two open polls; the identifier of the first is the empty string. *)
Definition twoPolls : list Poll :=
  [ mkPoll "" "First" "" (Some 2000%Z) true 20%Z
      [ mkOption "o1" "" "Yes" [] ];
    mkPoll "p2" "Second" "" (Some 2000%Z) true 10%Z
      [ mkOption "o2" "p2" "No" [] ] ].

(** A backend that returns [twoPolls], finds no vote and accepts every
    insert. *)
Definition obliging : Oracle :=
  fun R q =>
    match q in Request R return Response R with
    | SelectPolls => Data (Some twoPolls)
    | SelectVote _ _ => Data None
    | InsertVote _ _ _ => Data tt
    | SelectProfile _ => Data (Some (mkProfile (Some false)))
    end.

(** alice signs in, the list loads, and she clicks the option of the first
    poll: its submission is waiting for the existence check. *)
Definition firstClick : list Input :=
  [ AuthStateChange "SIGNED_IN" (Some (mkSession (Some alice)));
    Resolve 0 obliging;
    Mount;
    Resolve 0 obliging;
    ClickOption 1000%Z 0 0 ].

(** A backend that fails every request. *)
Definition unavailable : Oracle := fun R q => Failure "network error".

(** The poll "Favorite color" after alice voted for Red, as the composite
    read returns it. *)
Definition favoriteColor : Poll :=
  mkPoll "p1" "Favorite color" "Pick one" (Some 2000%Z) true 10%Z
    [ mkOption "red" "p1" "Red" [ mkVote "v1" "p1" "red" "alice" ];
      mkOption "blue" "p1" "Blue" [] ].

(** No user, and the administrator flag set. *)
Definition staleAdmin : AuthStore := mkAuthStore None true.

(** A poll that was deactivated before its end time. *)
Definition deactivated : Poll :=
  mkPoll "p3" "Closed early" "" (Some 2000%Z) false 5%Z
    [ mkOption "yes" "p3" "Yes" [] ].

(** alice, signed in, looking at the poll "Favorite color" before any vote. *)
Definition aliceBrowsing : Frontend :=
  mkFrontend aliceSignedIn (mkState (fetchAll colours) false None None).

(** The poll "Favorite color" without a vote, and its option Blue. *)
Definition blue : PollOption := mkOption "blue" "p1" "Blue" [].

Definition blueBallot : Poll :=
  mkPoll "p1" "Favorite color" "Pick one" (Some 2000%Z) true 10%Z
    [ mkOption "red" "p1" "Red" []; blue ].

(** A backend that answers from [colours], finds no vote and accepts every
    insert. *)
Definition honest : Oracle :=
  fun R q =>
    match q in Request R return Response R with
    | SelectPolls => Data (Some (fetchAll colours))
    | SelectVote _ _ => Data None
    | InsertVote _ _ _ => Data tt
    | SelectProfile _ => Data (Some (mkProfile (Some false)))
    end.

(** alice signs in, the list loads, and she clicks Red: her submission is
    waiting for the existence check. *)
Definition aliceClicked : Client :=
  step (ClickOption 1000%Z 0 0)
    (step (Resolve 0 honest)
       (step Mount
          (step (Resolve 0 honest)
             (step (AuthStateChange "SIGNED_IN"
                      (Some (mkSession (Some alice))))
                initialClient)))).

(** A backend on which every profile is an administrator's. *)
Definition allAdmins : Oracle :=
  fun R q =>
    match q in Request R return Response R with
    | SelectPolls => Data (Some [favoriteColor])
    | SelectVote _ _ => Data None
    | InsertVote _ _ _ => Data tt
    | SelectProfile _ => Data (Some (mkProfile (Some true)))
    end.

(** A backend whose composite read succeeds with no data. *)
Definition noData : Oracle :=
  fun R q =>
    match q in Request R return Response R with
    | SelectPolls => Data None
    | SelectVote _ _ => Data None
    | InsertVote _ _ _ => Data tt
    | SelectProfile _ => Data None
    end.

(** ** [PollList]: the status callback of the realtime subscription *)

Definition onSubscriptionStatus (status : string) : Task unit :=
  if String.eqb status "SUBSCRIPTION_ERROR"
  then act (ConsoleError "Real-time subscription error") ;;
       act (ToastError "Real-time updates unavailable")
  else Ret tt.

(** ** More classifiers of events *)

Definition isCheck (e : Event) : bool :=
  match e with
  | Requested (SelectVote _ _) _ => true
  | _ => false
  end.

(** A request failed. *)
Definition requestFailed (e : Event) : bool :=
  match e with
  | Requested _ (Failure _) => true
  | _ => false
  end.

Definition isToastSuccess (e : Event) : bool :=
  match e with
  | Performed (ToastSuccess _) => true
  | _ => false
  end.

(** The setters of the four cells of [PollList]. *)
Definition isSetter (a : Action) : bool :=
  match a with
  | SetPolls _ | SetLoading _ | SetError _ | SetVotingInProgress _ => true
  | _ => false
  end.

(** The mutators of the session store. *)
Definition isStoreAction (a : Action) : bool :=
  match a with
  | StoreSetUser _ | StoreSetIsAdmin _ | StoreReset => true
  | _ => false
  end.

Definition callsSetter (e : Event) : bool :=
  match e with
  | Performed a => isSetter a
  | Requested _ _ => false
  end.

Definition callsStore (e : Event) : bool :=
  match e with
  | Performed a => isStoreAction a
  | Requested _ _ => false
  end.

(** The message of [handleVote] when the check or the insert failed. *)
Definition failedToVote : string := "Failed to record vote. Please try again.".

(** The segment that [t] runs next ends in an uncaught exception. *)
Definition crashes (t : Task unit) (f : Frontend) : bool :=
  match segment_paused (segment t f) with
  | Crashed _ => true
  | _ => false
  end.

(** No resumption ends in an uncaught exception. *)
Definition neverCrashes : Resumption :=
  fun R q r t => forall f, crashes t f = false.

(** What the resumption that receives the [data] of a successful composite
    read does: it replaces the poll collection, clears [loading], and
    leaves the error as it was. *)
Definition appliesFetch : Resumption :=
  fun R q r t =>
    forall d, delivered q r = Some d ->
    forall f,
      let f' := segment_frontend (segment t f) in
      polls (component f') = or_empty d
      /\ loading (component f') = false
      /\ error (component f') = error (component f).

(** ** [App]: its state, [initializeAuth], [handleSignOut] and the render *)

(** The store, the [loading] cell of [App], and the cells of the [PollList]
    that [App] has mounted (when it has none mounted, the values the next
    instance starts with are in their place). *)
Record AppState : Type := mkApp {
  app_frontend : Frontend;
  app_loading : bool
}.

Definition initialApp : AppState :=
  mkApp (mkFrontend signedOut initialState) true.

(** The actions of [App]: those of the store and of the toasts, and its own
    [setLoading]. *)
Inductive AppAction : Type :=
| Within (a : Action)
| SetAppLoading (b : bool).

Definition performApp (a : AppAction) (s : AppState) : AppState :=
  match a with
  | Within a' => mkApp (perform a' (app_frontend s)) (app_loading s)
  | SetAppLoading b => mkApp (app_frontend s) b
  end.

(** The requests of [App]: [auth.getSession], [auth.signOut], and the
    queries. *)
Inductive AppRequest : Type -> Type :=
| GetSession : AppRequest (option AuthSession)
| SignOut : AppRequest unit
| Query {R : Type} (q : Request R) : AppRequest R.

Inductive AppTask (A : Type) : Type :=
| ARet (a : A)
| AThrow (e : string)
| ADo (a : AppAction) (k : AppTask A)
| AAwait {R : Type} (q : AppRequest R) (k : Response R -> AppTask A).

Arguments ARet {A} a.
Arguments AThrow {A} e.
Arguments ADo {A} a k.
Arguments AAwait {A R} q k.

Fixpoint abind {A B : Type} (t : AppTask A) (f : A -> AppTask B) : AppTask B :=
  match t with
  | ARet a => f a
  | AThrow e => AThrow e
  | ADo a k => ADo a (abind k f)
  | AAwait q k => AAwait q (fun r => abind (k r) f)
  end.

Fixpoint atry_catch {A : Type} (t : AppTask A) (h : string -> AppTask A)
    : AppTask A :=
  match t with
  | ARet a => ARet a
  | AThrow e => h e
  | ADo a k => ADo a (atry_catch k h)
  | AAwait q k => AAwait q (fun r => atry_catch (k r) h)
  end.

Fixpoint atry_finally {A : Type} (t : AppTask A) (f : AppTask unit)
    : AppTask A :=
  match t with
  | ARet a => abind f (fun _ => ARet a)
  | AThrow e => abind f (fun _ => AThrow e)
  | ADo a k => ADo a (atry_finally k f)
  | AAwait q k => AAwait q (fun r => atry_finally (k r) f)
  end.

Definition aact (a : AppAction) : AppTask unit := ADo a (ARet tt).

Definition aawait {R : Type} (q : AppRequest R) : AppTask (Response R) :=
  AAwait q (fun r => ARet r).

(** A task of the component or of the store handler, as a task of [App]. *)
Fixpoint lift {A : Type} (t : Task A) : AppTask A :=
  match t with
  | Ret a => ARet a
  | Throw e => AThrow e
  | Do a k => ADo (Within a) (lift k)
  | Await q k => AAwait (Query q) (fun r => lift (k r))
  end.

Declare Scope app_scope.
Delimit Scope app_scope with app.
Bind Scope app_scope with AppTask.

Notation "x <- t ;; k" := (abind t (fun x => k))
  (at level 61, t at next level, right associativity) : app_scope.
Notation "t ;; k" := (abind t (fun _ => k))
  (at level 61, right associativity) : app_scope.

Definition initializeAuth : AppTask unit :=
  atry_finally
    (atry_catch
       (r <- aawait GetSession ;;
        match r with
        | Failure sessionError => AThrow sessionError
        | Data session =>
            match sessionUser session with
            | Some u =>
                aact (Within (StoreSetUser u)) ;;
                r' <- aawait (Query (SelectProfile (user_id u))) ;;
                match r' with
                | Failure profileError => AThrow profileError
                | Data profile =>
                    aact (Within (StoreSetIsAdmin (profileIsAdmin profile)))
                end
            | None => ARet tt
            end
        end)%app
       (fun error =>
          aact (Within (ConsoleError "Auth initialization error:")) ;;
          aact (Within StoreReset) ;;
          aact (Within (ToastError "Failed to initialize authentication")))%app)
    (aact (SetAppLoading false)).

Definition handleSignOut : AppTask unit :=
  atry_catch
    (r <- aawait SignOut ;;
     match r with
     | Failure error => AThrow error
     | Data _ =>
         aact (Within StoreReset) ;;
         aact (Within (ToastSuccess "Successfully signed out"))
     end)%app
    (fun error =>
       aact (Within (ConsoleError "Sign out error:")) ;;
       aact (Within (ToastError "Failed to sign out. Please try again.")))%app.

(** What a run of a task of [App] leaves behind. *)
Inductive AppEvent : Type :=
| AppPerformed (a : AppAction)
| AppRequested {R : Type} (q : AppRequest R) (r : Response R).

Record AppRun (B A : Type) : Type := mkAppRun {
  app_outcome : Outcome A;
  app_backend_after : B;
  app_after : AppState;
  app_events : list AppEvent
}.

Arguments mkAppRun {B A}.
Arguments app_outcome {B A}.
Arguments app_backend_after {B A}.
Arguments app_after {B A}.
Arguments app_events {B A}.

Section AppRunToCompletion.

Variable B : Type.
Variable respond : forall R : Type, AppRequest R -> B -> Response R * B.

Fixpoint runApp {A : Type} (t : AppTask A) (b : B) (s : AppState)
    : AppRun B A :=
  match t with
  | ARet a => mkAppRun (Returned a) b s []
  | AThrow e => mkAppRun (Uncaught e) b s []
  | ADo a k =>
      let rest := runApp k b (performApp a s) in
      mkAppRun (app_outcome rest) (app_backend_after rest) (app_after rest)
        (AppPerformed a :: app_events rest)
  | AAwait q k =>
      let answer := respond _ q b in
      let rest := runApp (k (fst answer)) (snd answer) s in
      mkAppRun (app_outcome rest) (app_backend_after rest) (app_after rest)
        (AppRequested q (fst answer) :: app_events rest)
  end.

End AppRunToCompletion.

Arguments runApp {B} respond {A} t b s.

Definition isAppRequest (e : AppEvent) : bool :=
  match e with
  | AppRequested _ _ => true
  | AppPerformed _ => false
  end.

Definition isAppToastError (msg : string) (e : AppEvent) : bool :=
  match e with
  | AppPerformed (Within (ToastError m)) => String.eqb m msg
  | _ => false
  end.

(** The user block of the navigation bar: the email, and the Admin badge. *)
Record Nav : Type := mkNav {
  nav_email : string;
  nav_adminBadge : bool
}.

(** The main area: the sign-in form, or the poll creation form (for an
    administrator) above the poll list. *)
Inductive Main : Type :=
| SignInForm
| Dashboard (createPoll : bool) (pollList : Rendered).

Inductive AppView : Type :=
| Initializing (message : string)
| Page (nav : option Nav) (main : Main).

Definition appRender (now : Z) (s : AppState) : AppView :=
  if app_loading s then Initializing "Initializing application..."
  else
    let st := store (app_frontend s) in
    Page
      (match user st with
       | Some u => Some (mkNav (user_email u) (isAdmin st))
       | None => None
       end)
      (match user st with
       | None => SignInForm
       | Some _ =>
           Dashboard (isAdmin st)
             (render now st (component (app_frontend s)))
       end).

(** The poll cards [App] shows, if it shows the poll grid. *)
Definition shownCards (v : AppView) : list PollCard :=
  match v with
  | Page _ (Dashboard _ (PollGrid cards)) => cards
  | _ => []
  end.

(** ** The page: [App] and the instances of [PollList] it mounts *)

(** [App] renders [PollList] when its own [loading] is false and the store
    holds a user, and the sign-in form in its place when the store holds
    none.  So the poll list is unmounted when the user becomes null, and a
    new instance, its four cells at their initial values, is mounted when a
    user is there again; the effect of the new instance calls its
    [fetchPolls].  The requests of an instance that was unmounted are not
    aborted: its tasks resume when the responses arrive and send their next
    requests, but their calls of the setters of the instance that is gone
    do nothing. *)

Inductive AppPaused : Type :=
| AppFinished
| AppCrashed (e : string)
| AppWaiting {R : Type} (q : AppRequest R) (k : Response R -> AppTask unit).

Record AppSegment : Type := mkAppSegment {
  asegment_state : AppState;
  asegment_actions : list AppAction;
  asegment_paused : AppPaused
}.

Fixpoint asegment (t : AppTask unit) (s : AppState) : AppSegment :=
  match t with
  | ARet _ => mkAppSegment s [] AppFinished
  | AThrow e => mkAppSegment s [] (AppCrashed e)
  | ADo a k =>
      let rest := asegment k (performApp a s) in
      mkAppSegment (asegment_state rest) (a :: asegment_actions rest)
        (asegment_paused rest)
  | AAwait q k => mkAppSegment s [] (AppWaiting q k)
  end.

(** A task of [App] waiting for the response to its request. *)
Inductive AppSuspended : Type :=
| AppSuspend {R : Type} (q : AppRequest R) (k : Response R -> AppTask unit).

Definition AppOracle : Type := forall R : Type, AppRequest R -> Response R.

(** The tasks that belong to an instance of [PollList]. *)
Definition isPollTask (s : Suspended) : bool :=
  match kindOf s with
  | AuthChange => false
  | _ => true
  end.

(** The page: the client (the store, the instance of [PollList] that is
    mounted, if one is, and the tasks of that instance and of the store
    handler), the [loading] cell of [App], the tasks of [App] in flight
    ([initializeAuth], [handleSignOut]) with what they did so far, and the
    tasks in flight of the instances that were unmounted. *)
Record PageState : Type := mkPage {
  page_client : Client;
  page_loading : bool;
  page_tasks : list AppSuspended;
  page_orphans : list Suspended;
  page_log : list AppEvent
}.

Definition appState (p : PageState) : AppState :=
  mkApp (ui (page_client p)) (page_loading p).

(** [PollList] is on the page: [App] is past its spinner, and the store
    holds a user.  The Sign Out button is there under the same condition. *)
Definition mounted (p : PageState) : bool :=
  negb (page_loading p) && present (user (store (ui (page_client p)))).

Definition withClient (g : Client -> Client) (p : PageState) : PageState :=
  mkPage (g (page_client p)) (page_loading p) (page_tasks p) (page_orphans p)
    (page_log p).

(** Start (or resume) a task of [App]: run its next segment. *)
Definition scheduleApp (t : AppTask unit) (p : PageState) : PageState :=
  let sg := asegment t (appState p) in
  mkPage
    (mkClient (app_frontend (asegment_state sg)) (outstanding (page_client p))
       (history (page_client p)))
    (app_loading (asegment_state sg))
    (page_tasks p ++
       match asegment_paused sg with
       | AppWaiting q k => [AppSuspend q k]
       | _ => []
       end)
    (page_orphans p)
    (page_log p ++ map AppPerformed (asegment_actions sg)).

(** The response to a request of an instance that was unmounted: the task
    runs its next segment; the setters of its instance do nothing, the
    toasts and the console take effect as ever; the cells of the instance
    that is mounted now are not its own and stay as they are. *)
Definition resumeOrphan (n : nat) (answer : Oracle) (p : PageState) : PageState :=
  match nth_error (page_orphans p) n with
  | Some (Suspend kind q k) =>
      let r := answer _ q in
      let c := page_client p in
      let sg := segment (k r) (ui c) in
      mkPage
        (mkClient
           (mkFrontend (store (segment_frontend sg)) (component (ui c)))
           (outstanding c)
           (history c ++ Requested q r ::
              map Performed
                (filter (fun a => negb (isSetter a)) (segment_actions sg))))
        (page_loading p) (page_tasks p)
        (remove_nth n (page_orphans p) ++
           match segment_paused sg with
           | Waiting q' k' => [Suspend kind q' k']
           | _ => []
           end)
        (page_log p)
  | None => p
  end.

(** [App] takes [PollList] off the page: the cells of the instance are
    gone, and its tasks in flight are on their own. *)
Definition unmountPollList (p : PageState) : PageState :=
  let c := page_client p in
  mkPage
    (mkClient (mkFrontend (store (ui c)) initialState)
       (filter (fun s => negb (isPollTask s)) (outstanding c))
       (history c))
    (page_loading p) (page_tasks p)
    (page_orphans p ++ filter isPollTask (outstanding c))
    (page_log p).

(** [App] puts a new instance of [PollList] on the page: its cells have
    their initial values, and its effect calls [fetchPolls]. *)
Definition mountPollList (p : PageState) : PageState :=
  withClient
    (fun c =>
       step Mount
         (mkClient (mkFrontend (store (ui c)) initialState) (outstanding c)
            (history c)))
    p.

(** The render of [App] after a step: [was] tells whether [PollList] was on
    the page before it. *)
Definition remount (was : bool) (p : PageState) : PageState :=
  if was then (if mounted p then p else unmountPollList p)
  else (if mounted p then mountPollList p else p).

(** What the outside world does to the page.  The clicks and the change
    notifications reach [PollList] only while it is on the page. *)
Inductive PageInput : Type :=
| Notified
| TryAgainClicked (now : Z)
| OptionClicked (now : Z) (card button : nat)
| SignOutClicked
| AuthChanged (event : string) (session : option AuthSession)
| Resolved (n : nat) (answer : Oracle)
| AppResolved (n : nat) (answer : AppOracle)
| OrphanResolved (n : nat) (answer : Oracle).

Definition pageAct (i : PageInput) (p : PageState) : PageState :=
  match i with
  | Notified =>
      if mounted p then withClient (step ChangeNotification) p else p
  | TryAgainClicked now =>
      if mounted p then withClient (step (ClickTryAgain now)) p else p
  | OptionClicked now i j =>
      if mounted p then withClient (step (ClickOption now i j)) p else p
  | SignOutClicked =>
      if mounted p then scheduleApp handleSignOut p else p
  | AuthChanged event session =>
      withClient (step (AuthStateChange event session)) p
  | Resolved n answer => withClient (step (Resolve n answer)) p
  | AppResolved n answer =>
      match nth_error (page_tasks p) n with
      | Some (AppSuspend q k) =>
          let r := answer _ q in
          scheduleApp (k r)
            (mkPage (page_client p) (page_loading p)
               (remove_nth n (page_tasks p)) (page_orphans p)
               (page_log p ++ [AppRequested q r]))
      | None => p
      end
  | OrphanResolved n answer => resumeOrphan n answer p
  end.

Definition pageStep (i : PageInput) (p : PageState) : PageState :=
  remount (mounted p) (pageAct i p).

Definition pageSteps (inputs : list PageInput) (p : PageState) : PageState :=
  fold_left (fun p i => pageStep i p) inputs p.

(** [App] has just been mounted: its effect has called [initializeAuth],
    which waits for the session, and has subscribed the store handler. *)
Definition initialPage : PageState :=
  scheduleApp initializeAuth (mkPage initialClient true [] [] []).

Inductive pageReachable : PageState -> Prop :=
| page_initial : pageReachable initialPage
| page_step (i : PageInput) (p : PageState) :
    pageReachable p -> pageReachable (pageStep i p).

(** The states the page reaches while no poll that the poll list comes to
    hold has the empty string as its identifier. *)
Inductive pageReachableKeyed : PageState -> Prop :=
| keyed_initial : pageReachableKeyed initialPage
| keyed_step (i : PageInput) (p : PageState) :
    pageReachableKeyed p -> wellKeyed (page_client (pageStep i p)) ->
    pageReachableKeyed (pageStep i p).

(** The vote submissions of the instances that were unmounted, still in
    flight. *)
Definition orphanSubmissions (p : PageState) : list Suspended :=
  filter (fun s => isVoteSubmission (kindOf s)) (page_orphans p).

(** A task of [App] calls no setter of [PollList]. *)
Fixpoint storeOnly (t : AppTask unit) : Prop :=
  match t with
  | ARet _ | AThrow _ => True
  | ADo a k =>
      match a with
      | Within a' => isSetter a' = false
      | SetAppLoading _ => True
      end /\ storeOnly k
  | AAwait q k => forall r, storeOnly (k r)
  end.

Definition storeOnlyTask (s : AppSuspended) : Prop :=
  match s with
  | AppSuspend q k => forall r, storeOnly (k r)
  end.

(** What holds of the page at every moment: of the instance on the page,
    [singleFlight]; the tasks of [App] call no setter of [PollList]; and
    while no instance is on the page, no task of the client belongs to a
    poll list. *)
Definition pageInvariant (strict : bool) (p : PageState) : Prop :=
  singleFlight strict (page_client p)
  /\ Forall storeOnlyTask (page_tasks p)
  /\ (mounted p = false ->
      Forall (fun s => isPollTask s = false) (outstanding (page_client p))).

(** ** Sample pages *)

Definition aliceSession : option AuthSession := Some (mkSession (Some alice)).

(** The backend of [honest], with the session of alice. *)
Definition honestApp : AppOracle :=
  fun R q =>
    match q in AppRequest R return Response R with
    | GetSession => Data aliceSession
    | SignOut => Data tt
    | Query q' => honest _ q'
    end.

(** [App] finds the session of alice and reads her profile; the poll list
    is mounted and loads the poll "Favorite color". *)
Definition aliceArrives : list PageInput :=
  [ AppResolved 0 honestApp; AppResolved 0 honestApp; Resolved 0 honest ].

(** She clicks Red: her submission waits for the existence check. *)
Definition aliceClicksRed : list PageInput :=
  aliceArrives ++ [ OptionClicked 1000%Z 0 0 ].

(** Before the response arrives she is signed out and signs in again: the
    store handler reads her profile, and the new poll list loads the poll. *)
Definition aliceReturns : list PageInput :=
  aliceClicksRed ++
  [ AuthChanged "SIGNED_OUT" None;
    AuthChanged "SIGNED_IN" aliceSession;
    Resolved 0 honest;
    Resolved 0 honest ].

(** She clicks Blue. *)
Definition aliceClicksBlue : list PageInput :=
  aliceReturns ++ [ OptionClicked 1000%Z 0 1 ].

(** * Properties *)

(** ** Results projection *)

Lemma endsAfter_spec (now : Z) (poll : Poll) :
  endsAfter now poll = true <-> ends_in_future now poll.
Proof.
  unfold endsAfter, ends_in_future.
  destruct (poll_ends_at poll) as [t|].
  - rewrite Z.ltb_lt. split.
    + intros H. exists t. auto.
    + intros [t' [E H]]. injection E as ->. exact H.
  - split; [discriminate | intros [t [E _]]; discriminate].
Qed.

(** C5: a poll is open exactly when its end timestamp is strictly in the
    future and its active flag is true; a poll whose active flag is false is
    closed whatever its end time. *)
Theorem isPollActive_iff (now : Z) (poll : Poll) :
  (isPollActive now poll = true <->
     ends_in_future now poll /\ poll_is_active poll = true)
  /\ (poll_is_active poll = false -> isPollActive now poll = false).
Proof.
  unfold isPollActive. split.
  - rewrite andb_true_iff, endsAfter_spec. reflexivity.
  - intros ->. apply andb_false_r.
Qed.

(** C5, at a concrete input: a deactivated poll whose end time is still
    ahead is closed. *)
Lemma isPollActive_iff_witness :
  poll_is_active deactivated = false
  /\ ends_in_future 1000%Z deactivated
  /\ isPollActive 1000%Z deactivated = false.
Proof.
  split; [reflexivity|]. split.
  - exists 2000%Z. split; [reflexivity | reflexivity].
  - apply (proj2 (isPollActive_iff 1000%Z deactivated)). reflexivity.
Defined.

(** The scenario of a poll that ended yesterday and is still flagged
    active: it is closed, and its buttons are disabled for every viewer,
    whatever the votes. *)
Lemma ended_poll_is_closed (s : AuthStore) (st : PollListState)
    (votes : list Vote) :
  let poll := mkPoll "p4" "Yesterday" "" (Some 500%Z) true 5%Z
                [ mkOption "yes" "p4" "Yes" votes ] in
  isPollActive 1000%Z poll = false
  /\ disabled 1000%Z s st poll = true.
Proof.
  simpl. split; [reflexivity|]. unfold disabled. simpl.
  rewrite orb_true_r. reflexivity.
Qed.

(** ** The vote workflow *)

Section VoteWorkflow.

Variable B : Type.
Variable respond : forall R : Type, Request R -> B -> Response R * B.

(** Case analysis on the responses a run meets, in order. *)
Ltac answers :=
  repeat match goal with
         | |- context [respond ?R ?q ?b] =>
             let d := fresh "d" in
             let e := fresh "e" in
             let b' := fresh "b" in
             destruct (respond R q b) as [[d|e] b']; simpl;
             try match type of d with
                 | option _ => destruct d; simpl
                 | unit => destruct d; simpl
                 end
         end.

Lemma handleVote_signed_out (m : option string) (pollId optionId : string) :
  handleVote None m pollId optionId = act (ToastError "Please sign in to vote").
Proof. reflexivity. Qed.

Lemma handleVote_busy (u : User) (m : option string)
    (pollId optionId : string) :
  truthy m = true -> handleVote (Some u) m pollId optionId = Ret tt.
Proof. intros H. unfold handleVote. rewrite H. reflexivity. Qed.


(** An admitted submission clears the marker however it ends, and never
    leaves an exception uncaught. *)
Lemma submission_clears_marker (b : B) (f : Frontend) (u : User)
    (pollId optionId : string) :
  user (store f) = Some u ->
  truthy (votingInProgress (component f)) = false ->
  let r := run respond (invoke f pollId optionId) b f in
  votingInProgress (component (frontend_after r)) = None
  /\ outcome r = Returned tt.
Proof.
  intros Hu Hm. unfold invoke, handleVote. rewrite Hu, Hm. simpl.
  answers; auto.
Qed.

(** A submission that is turned away leaves the marker as it was. *)
Lemma rejection_keeps_marker (b : B) (f : Frontend)
    (pollId optionId : string) :
  (user (store f) = None \/ truthy (votingInProgress (component f)) = true) ->
  frontend_after (run respond (invoke f pollId optionId) b f) = f.
Proof.
  unfold invoke, handleVote. destruct f as [s st]. simpl.
  intros [-> | H]; simpl; [reflexivity|].
  rewrite H. destruct (user s); reflexivity.
Qed.

(** What a click needs to reach the insert: the button, rendered at the
    instant [now], was enabled (a user, no vote of that user among the
    fetched votes, the poll open at [now], the marker not naming the poll),
    the guard of [handleVote] let the invocation pass, and the existence
    check found no vote. *)
Lemma click_insert_conditions (b : B) (now : Z) (s : AuthStore)
    (st : PollListState) (poll : Poll) (o : PollOption) :
  (existsb isInsert
     (events (run respond (click s st (renderOption now s st poll o)) b
                (mkFrontend s st))) = true ->
   present (user s) = true
   /\ hasVoted (user s) poll = false
   /\ isPollActive now poll = true
   /\ truthy (votingInProgress st) = false
   /\ (forall u, user s = Some u ->
       existsb (foundVote (poll_id poll) (user_id u))
         (events (run respond (click s st (renderOption now s st poll o)) b
                    (mkFrontend s st))) = false))
  /\ (button_disabled (renderOption now s st poll o) = false <->
        present (user s) = true
        /\ hasVoted (user s) poll = false
        /\ isPollActive now poll = true
        /\ strict_eq (votingInProgress st) (poll_id poll) = false).
Proof.
  unfold click, renderOption, disabled. simpl. split.
  - destruct (user s) as [u|] eqn:Hu; simpl; [|discriminate].
    destruct (existsb (votedFor u) (poll_options poll)); simpl; [discriminate|].
    destruct (isPollActive now poll); simpl; [|discriminate].
    destruct (strict_eq (votingInProgress st) (poll_id poll)); simpl;
      [discriminate|].
    unfold handleVote.
    destruct (truthy (votingInProgress st)); simpl; [discriminate|].
    answers; try discriminate;
      intros _; repeat split; intros u' E; injection E as <-; reflexivity.
  - destruct (present (user s)), (hasVoted (user s) poll),
      (isPollActive now poll),
      (strict_eq (votingInProgress st) (poll_id poll)); simpl;
      split; try discriminate; try tauto;
      intros [H1 [H2 [H3 H4]]]; discriminate.
Qed.

(** C3: when the existence check for (P, U) finds a vote, the workflow of
    U on P, whatever the option, reports "already voted" and stops: the
    check is its only request, no insert is sent, and the marker is
    cleared. *)
Theorem existing_vote_reported_never_inserted (b : B) (f : Frontend)
    (u : User) (pollId optionId : string) :
  user (store f) = Some u ->
  existsb (foundVote pollId (user_id u))
    (events (run respond (invoke f pollId optionId) b f)) = true ->
  let r := run respond (invoke f pollId optionId) b f in
  (exists v,
     events r =
       [ Performed (SetVotingInProgress (Some pollId));
         Requested (SelectVote pollId (user_id u)) (Data (Some v));
         Performed (ToastError "You have already voted on this poll");
         Performed (SetVotingInProgress None) ])
  /\ existsb isInsert (events r) = false
  /\ outcome r = Returned tt.
Proof.
  unfold invoke. intros ->. unfold handleVote.
  destruct (truthy (votingInProgress (component f))); simpl;
    [discriminate|].
  answers; try discriminate.
  intros _. repeat split; eauto.
Qed.

(** When the backend holds a vote of U on P, no run of the workflow of U on
    P sends an insert, admitted or turned away. *)
Lemma existing_vote_never_inserted (b : B) (f : Frontend) (u : User)
    (pollId optionId : string) (v : string) :
  user (store f) = Some u ->
  fst (respond _ (SelectVote pollId (user_id u)) b) = Data (Some v) ->
  existsb isInsert (events (run respond (invoke f pollId optionId) b f))
  = false.
Proof.
  unfold invoke. intros -> H. unfold handleVote.
  destruct (truthy (votingInProgress (component f))); simpl; [reflexivity|].
  rewrite H. reflexivity.
Qed.

End VoteWorkflow.

Lemma reachable_steps (inputs : list Input) (c : Client) :
  reachable c -> reachable (steps inputs c).
Proof.
  revert c. induction inputs as [|i inputs IH]; intros c H; simpl.
  - exact H.
  - apply IH. constructor. exact H.
Qed.

(** C3, at a concrete input: alice has voted for Red and clicks Blue. *)
Lemma existing_vote_reported_never_inserted_witness :
  let r := run serve (invoke aliceBrowsing "p1" "blue") (reliable coloursVoted)
             aliceBrowsing in
  (exists v,
     events r =
       [ Performed (SetVotingInProgress (Some "p1"));
         Requested (SelectVote "p1" (user_id alice)) (Data (Some v));
         Performed (ToastError "You have already voted on this poll");
         Performed (SetVotingInProgress None) ])
  /\ existsb isInsert (events r) = false
  /\ outcome r = Returned tt.
Proof.
  apply (existing_vote_reported_never_inserted Server serve
           (reliable coloursVoted) aliceBrowsing alice "p1" "blue");
    reflexivity.
Defined.

(** ** The round trip through the backend *)

Lemma Forall2_map_same {A X : Type} (R : X -> X -> Prop) (g h : A -> X)
    (l : list A) :
  (forall a, R (g a) (h a)) -> Forall2 R (map g l) (map h l).
Proof.
  intros H. induction l as [|a l IH]; simpl; constructor; auto.
Qed.

Lemma votesOf_addVote (db : Database) (v : Vote) (o : OptionRow) :
  votesOf (addVote db v) o =
  votesOf db o ++
    (if String.eqb (vote_option_id v) (orow_id o) then [v] else []).
Proof.
  unfold votesOf, addVote. simpl. rewrite filter_app. reflexivity.
Qed.

Lemma optionsOf_addVote (db : Database) (v : Vote) (p : PollRow) :
  Forall2 (bumped (vote_option_id v)) (optionsOf db p)
    (optionsOf (addVote db v) p).
Proof.
  unfold optionsOf. simpl. apply Forall2_map_same. intros o.
  unfold bumped. simpl. repeat split.
  rewrite votesOf_addVote, length_app, (String.eqb_sym (orow_id o)).
  destruct (String.eqb (vote_option_id v) (orow_id o)); reflexivity.
Qed.

Lemma fetchAll_addVote (db : Database) (v : Vote) :
  reflectsVote (vote_option_id v) (fetchAll db) (fetchAll (addVote db v)).
Proof.
  unfold reflectsVote, fetchAll. simpl. apply Forall2_map_same. intros p.
  split; [reflexivity|]. apply optionsOf_addVote.
Qed.

(** C4: after a successful insert of a vote for (P, O, U) the workflow
    sends the composite read, as its third and last request, to the backend
    that now holds the new vote.  When that re-fetch succeeds, it replaces
    the poll collection by one in which every option with the identifier O
    has exactly one vote more than the backend held before, and every other
    option as many as before; when it fails, the collection stays as it
    was. *)
Theorem refetch_reflects_vote (sv : Server) (f : Frontend) (u : User)
    (pollId optionId : string) :
  user (store f) = Some u ->
  existsb (fun e => isInsert e && succeeded e)
    (events (run serve (invoke f pollId optionId) sv f)) = true ->
  let r := run serve (invoke f pollId optionId) sv f in
  let db' := addVote (database sv)
               (mkVote (hd "" (identifiers sv)) pollId optionId (user_id u)) in
  database (backend_after r) = db'
  /\ exists refetch,
       filter isRequest (events r) =
         [ Requested (SelectVote pollId (user_id u)) (Data None);
           Requested (InsertVote pollId optionId (user_id u)) (Data tt);
           Requested SelectPolls refetch ]
       /\ match refetch with
          | Data d =>
              d = Some (fetchAll db')
              /\ polls (component (frontend_after r)) = fetchAll db'
              /\ reflectsVote optionId (fetchAll (database sv))
                   (polls (component (frontend_after r)))
              /\ (polls (component f) = fetchAll (database sv) ->
                  reflectsVote optionId (polls (component f))
                    (polls (component (frontend_after r))))
          | Failure _ =>
              polls (component (frontend_after r)) = polls (component f)
          end.
Proof.
  unfold invoke. intros ->. unfold handleVote.
  destruct (truthy (votingInProgress (component f))); simpl;
    [discriminate|].
  destruct sv as [db out ids].
  pose proof (fetchAll_addVote db
                (mkVote (hd "" ids) pollId optionId (user_id u))) as Hgoal.
  simpl in Hgoal.
  destruct out as [|[|] [|[|] [|[|] out]]]; unfold serve; simpl;
    destruct (findVote db pollId (user_id u)) eqn:Hfind; simpl;
    rewrite ?Hfind; simpl;
    try discriminate;
    intros _;
    (split; [reflexivity|]);
    eexists; (split; [reflexivity|]); simpl;
    try reflexivity;
    (split; [reflexivity|]); (split; [reflexivity|]);
    (split; [exact Hgoal | intros ->; exact Hgoal]).
Qed.

(** C4, at a concrete input: alice votes for Blue in the poll "Favorite
    color", which had no vote. *)
Lemma refetch_reflects_vote_witness :
  let r := run serve (invoke aliceBrowsing "p1" "blue") (reliable colours)
             aliceBrowsing in
  let db' := addVote colours (mkVote "v7" "p1" "blue" "alice") in
  (database (backend_after r) = db'
   /\ exists refetch,
        filter isRequest (events r) =
          [ Requested (SelectVote "p1" "alice") (Data None);
            Requested (InsertVote "p1" "blue" "alice") (Data tt);
            Requested SelectPolls refetch ]
        /\ match refetch with
           | Data d =>
               d = Some (fetchAll db')
               /\ polls (component (frontend_after r)) = fetchAll db'
               /\ reflectsVote "blue" (fetchAll colours)
                    (polls (component (frontend_after r)))
               /\ (polls (component aliceBrowsing) = fetchAll colours ->
                   reflectsVote "blue" (polls (component aliceBrowsing))
                     (polls (component (frontend_after r))))
           | Failure _ =>
               polls (component (frontend_after r)) =
               polls (component aliceBrowsing)
           end)
  /\ map data (polls (component (frontend_after r))) =
       [ [("Red", 0); ("Blue", 1)] ].
Proof.
  split; [|reflexivity].
  apply (refetch_reflects_vote (reliable colours) aliceBrowsing alice
           "p1" "blue"); reflexivity.
Defined.

(** The scenario of the poll "Favorite color": once alice has voted for
    Blue she counts as having voted, the tallies are Red 0 and Blue 1, the
    button of Blue is marked selected, and both buttons are disabled. *)
Lemma favorite_color_scenario :
  let f := frontend_after
             (run serve (invoke aliceBrowsing "p1" "blue") (reliable colours)
                aliceBrowsing) in
  map (hasVoted (user (store f))) (polls (component f)) = [true]
  /\ map data (polls (component f)) = [ [("Red", 0); ("Blue", 1)] ]
  /\ map (fun c => map (fun b => (button_text b, button_style b,
                                  button_disabled b))
                     (card_buttons c))
       (map (renderPoll 1000%Z (store f) (component f)) (polls (component f)))
     = [ [ ("Red", Hoverable, true); ("Blue", Selected, true) ] ].
Proof. repeat split. Qed.

(** ** Invariants of the event loop *)

(** The action of the error panel is [fetchPolls]. *)
Lemma render_retry (now : Z) (s : AuthStore) (st : PollListState)
    (message label : string) (onClick : Task unit) :
  render now s st = ErrorPanel message label onClick -> onClick = fetchPolls.
Proof.
  unfold render. destruct (loading st); [discriminate|].
  destruct (error st) as [m|];
    [destruct (truthy_string m); [intros H; injection H as _ _ <-; reflexivity|]|];
    destruct (polls st); discriminate.
Qed.

Lemma remove_nth_cons {A : Type} (n : nat) (x : A) (l : list A) :
  remove_nth (S n) (x :: l) = x :: remove_nth n l.
Proof. reflexivity. Qed.

Lemma Forall_remove_nth {A : Type} (P : A -> Prop) (n : nat) (l : list A) :
  Forall P l -> Forall P (remove_nth n l).
Proof.
  intros H. revert n. induction H as [|x l Hx Hl IH]; intros n.
  - destruct n; constructor.
  - destruct n as [|n].
    + exact Hl.
    + rewrite remove_nth_cons. constructor; auto.
Qed.

Lemma segment_waiting (P : Resumption) (t : Task unit) (f : Frontend) :
  every_resumption P t ->
  match segment_paused (segment t f) with
  | Waiting q k => forall r, P _ q r (k r) /\ every_resumption P (k r)
  | _ => True
  end.
Proof.
  revert f. induction t as [a|e|a k IH|R q k IH]; intros f H; simpl.
  - exact Logic.I.
  - exact Logic.I.
  - apply IH. exact H.
  - exact H.
Qed.

Section EventLoopInvariant.

Variable I : Frontend -> Prop.
Variable P : Resumption.

Hypothesis resumption_keeps :
  forall R (q : Request R) r t, P R q r t -> keeps I t.
Hypothesis fetchPolls_sound : sound I P fetchPolls.
Hypothesis handleVote_sound :
  forall u m pollId optionId, sound I P (handleVote u m pollId optionId).
Hypothesis onAuthStateChange_sound :
  forall event session, sound I P (onAuthStateChange event session).

Lemma schedule_invariant (kind : Kind) (t : Task unit) (c : Client) :
  sound I P t -> invariant I P c -> invariant I P (schedule kind t c).
Proof.
  intros [Hk Hr] [Hi Ho]. split; simpl.
  - apply Hk, Hi.
  - apply Forall_app. split; [exact Ho|].
    pose proof (segment_waiting P t (ui c) Hr) as Hw.
    destruct (segment_paused (segment t (ui c))); constructor; auto.
Qed.

Lemma step_invariant (i : Input) (c : Client) :
  invariant I P c -> invariant I P (step i c).
Proof.
  intros Hc. destruct i as [| |now|now i j|event session|n answer]; simpl.
  - apply schedule_invariant; auto.
  - apply schedule_invariant; auto.
  - destruct (render now (store (ui c)) (component (ui c))) eqn:Hr;
      try exact Hc.
    rewrite (render_retry _ _ _ _ _ _ Hr). apply schedule_invariant; auto.
  - destruct (render now (store (ui c)) (component (ui c))); try exact Hc.
    destruct (nth_error cards i) as [card|]; [|exact Hc].
    destruct (nth_error (card_buttons card) j) as [b|]; [|exact Hc].
    destruct (button_disabled b); [exact Hc|].
    apply schedule_invariant; auto.
  - apply schedule_invariant; auto.
  - destruct (nth_error (outstanding c) n) as [[kind R q k]|] eqn:Hn;
      [|exact Hc].
    destruct Hc as [Hi Ho].
    assert (Hs : resumable P (Suspend kind q k)).
    { rewrite Forall_forall in Ho. apply Ho.
      apply (nth_error_In _ _ Hn). }
    destruct (Hs (answer R q)) as [Hp Hr].
    apply schedule_invariant.
    + split; [eapply resumption_keeps; eauto | exact Hr].
    + split; simpl; [exact Hi | apply Forall_remove_nth, Ho].
Qed.

Lemma reachable_invariant (c : Client) :
  I (ui initialClient) -> reachable c -> invariant I P c.
Proof.
  intros H0 Hc. induction Hc as [|i c Hc IH].
  - split; [exact H0 | constructor].
  - apply step_invariant, IH.
Qed.

End EventLoopInvariant.

(** ** The error state of the poll list *)

Ltac keeps_settled :=
  let f := fresh "f" in
  let H := fresh "H" in
  let m := fresh "m" in
  let E := fresh "E" in
  intros f H m; simpl; intros E;
  first [ discriminate E
        | injection E as <-; split; reflexivity
        | destruct (H m E); split; [assumption | first [reflexivity | assumption]] ].

Ltac surfaces :=
  split;
  [ keeps_settled
  | let Hq := fresh "Hq" in
    let Hr := fresh "Hr" in
    simpl; intros Hq Hr;
    first [ discriminate Hq | discriminate Hr | intros ?; split; reflexivity ] ].

Ltac resumptions :=
  simpl;
  repeat match goal with
         | |- True => exact Logic.I
         | |- surfacesFailure _ _ _ _ => surfaces
         | |- _ /\ _ => split
         | |- forall r : Response _, _ =>
             let d := fresh "d" in
             let e := fresh "e" in
             intros [d|e]; simpl;
             try match type of d with
                 | option string => destruct d; simpl
                 | unit => destruct d; simpl
                 end
         end.

Lemma fetchPolls_surfaces : sound errorSettled surfacesFailure fetchPolls.
Proof. split; [keeps_settled | resumptions]. Qed.

Lemma handleVote_surfaces (u : option User) (m : option string)
    (pollId optionId : string) :
  sound errorSettled surfacesFailure (handleVote u m pollId optionId).
Proof.
  unfold handleVote. destruct u as [u|]; [destruct (truthy m)|];
    (split; [keeps_settled | resumptions]).
Qed.

Lemma onAuthStateChange_surfaces (event : string)
    (session : option AuthSession) :
  sound errorSettled surfacesFailure (onAuthStateChange event session).
Proof.
  unfold onAuthStateChange.
  destruct (String.eqb event "SIGNED_OUT"); [|destruct (sessionUser session)];
    (split; [keeps_settled | resumptions]).
Qed.

Lemma reachable_settled (c : Client) :
  reachable c -> invariant errorSettled surfacesFailure c.
Proof.
  apply reachable_invariant.
  - intros R q r t [H _]. exact H.
  - exact fetchPolls_surfaces.
  - exact handleVote_surfaces.
  - exact onAuthStateChange_surfaces.
  - intros m. simpl. discriminate.
Qed.

Lemma fetchFailed_renders_error (now : Z) (f : Frontend) :
  fetchFailed f ->
  render now (store f) (component f) =
  ErrorPanel failedToLoad "Try Again" fetchPolls.
Proof.
  intros [He Hl]. unfold render. rewrite Hl, He. reflexivity.
Qed.

Lemma errorSettled_renders_error (now : Z) (f : Frontend) (m : string) :
  errorSettled f ->
  error (component f) = Some m ->
  render now (store f) (component f) = ErrorPanel m "Try Again" fetchPolls.
Proof.
  intros H E. destruct (H m E) as [-> Hl].
  apply fetchFailed_renders_error. split; assumption.
Qed.

(** A failing fetch, run to completion: the error panel is what the view
    shows next, and the poll collection is the one held before. *)
Lemma fetchPolls_failure (B : Type)
    (respond : forall R : Type, Request R -> B -> Response R * B)
    (b : B) (f : Frontend) (now : Z) (e : string) :
  fst (respond _ SelectPolls b) = Failure e ->
  let f' := frontend_after (run respond fetchPolls b f) in
  render now (store f') (component f') =
    ErrorPanel failedToLoad "Try Again" fetchPolls
  /\ polls (component f') = polls (component f).
Proof.
  intros H. simpl. rewrite H. simpl. split; reflexivity.
Qed.

(** C6: in every state the client can reach, under every interleaving of
    its tasks: when the composite read of a fetch fails, the view shows the
    error panel next, whose action is [fetchPolls] again; and whenever the
    error is set the view is that panel, so that no poll is rendered beside
    it. *)
Theorem failed_fetch_shows_error_panel (c : Client) :
  reachable c ->
  (forall n answer now,
     failsFetch c n answer = true ->
     let c' := step (Resolve n answer) c in
     render now (store (ui c')) (component (ui c')) =
       ErrorPanel failedToLoad "Try Again" fetchPolls)
  /\ (forall m now,
        error (component (ui c)) = Some m ->
        render now (store (ui c)) (component (ui c)) =
          ErrorPanel m "Try Again" fetchPolls
        /\ step (ClickTryAgain now) c = schedule PollFetch fetchPolls c)
  /\ (forall now cards,
        render now (store (ui c)) (component (ui c)) = PollGrid cards ->
        error (component (ui c)) = None).
Proof.
  intros Hc. destruct (reachable_settled c Hc) as [Hi Ho].
  split; [|split].
  - intros n answer now. unfold failsFetch. simpl.
    destruct (nth_error (outstanding c) n) as [[kind R q k]|] eqn:Hn;
      [|discriminate].
    intros H. apply andb_true_iff in H. destruct H as [Hq Hr].
    apply fetchFailed_renders_error.
    assert (Hs : resumable surfacesFailure (Suspend kind q k)).
    { rewrite Forall_forall in Ho. apply Ho. apply (nth_error_In _ _ Hn). }
    destruct (Hs (answer R q)) as [[_ Hf] _].
    apply (Hf Hq Hr).
  - intros m now E.
    pose proof (errorSettled_renders_error now (ui c) m Hi E) as Hr.
    split; [exact Hr|]. simpl. rewrite Hr. reflexivity.
  - intros now cards Hr.
    destruct (error (component (ui c))) as [m|] eqn:E; [|reflexivity].
    rewrite (errorSettled_renders_error now (ui c) m Hi E) in Hr.
    discriminate.
Qed.

(** C6, at a concrete input: the fetch of the mount fails. *)
Lemma failed_fetch_shows_error_panel_witness :
  let c := step Mount initialClient in
  let c' := step (Resolve 0 unavailable) c in
  reachable c
  /\ failsFetch c 0 unavailable = true
  /\ render 1000%Z (store (ui c')) (component (ui c')) =
       ErrorPanel failedToLoad "Try Again" fetchPolls.
Proof.
  split; [constructor; constructor|]. split; [reflexivity|].
  apply (proj1 (failed_fetch_shows_error_panel (step Mount initialClient)
                  (reachable_step Mount initialClient reachable_initial))).
  reflexivity.
Defined.

(** ** The poll collection *)

Ltac replaces :=
  simpl;
  repeat match goal with
         | |- True => exact Logic.I
         | |- replacesPolls _ _ _ _ =>
             intros ?; simpl;
             first [ left; reflexivity
                   | right; eexists; split; reflexivity ]
         | |- _ /\ _ => split
         | |- forall r : Response _, _ =>
             let d := fresh "d" in
             let e := fresh "e" in
             intros [d|e]; simpl;
             try match type of d with
                 | option string => destruct d; simpl
                 | unit => destruct d; simpl
                 end
         end.

Lemma fetchPolls_replaces : every_resumption replacesPolls fetchPolls.
Proof. replaces. Qed.

Lemma handleVote_replaces (u : option User) (m : option string)
    (pollId optionId : string) :
  every_resumption replacesPolls (handleVote u m pollId optionId).
Proof.
  unfold handleVote. destruct u as [u|]; [destruct (truthy m)|]; replaces.
Qed.

Lemma onAuthStateChange_replaces (event : string)
    (session : option AuthSession) :
  every_resumption replacesPolls (onAuthStateChange event session).
Proof.
  unfold onAuthStateChange.
  destruct (String.eqb event "SIGNED_OUT"); [|destruct (sessionUser session)];
    replaces.
Qed.

Lemma handleVote_keepsPolls (u : option User) (m : option string)
    (pollId optionId : string) :
  keepsPolls (handleVote u m pollId optionId).
Proof.
  unfold handleVote. intros f.
  destruct u as [u|]; [destruct (truthy m)|]; reflexivity.
Qed.

Lemma onAuthStateChange_keepsPolls (event : string)
    (session : option AuthSession) :
  keepsPolls (onAuthStateChange event session).
Proof.
  unfold onAuthStateChange. intros f.
  destruct (String.eqb event "SIGNED_OUT"); [|destruct (sessionUser session)];
    reflexivity.
Qed.

Lemma reachable_replaces (c : Client) :
  reachable c -> invariant (fun _ => True) replacesPolls c.
Proof.
  apply reachable_invariant.
  - intros R q r t _ f _. exact Logic.I.
  - split; [intros f _; exact Logic.I | exact fetchPolls_replaces].
  - intros u m pollId optionId.
    split; [intros f _; exact Logic.I | apply handleVote_replaces].
  - intros event session.
    split; [intros f _; exact Logic.I | apply onAuthStateChange_replaces].
  - exact Logic.I.
Qed.

(** Whatever happens to the client, the poll collection stays as it was or
    becomes the [data] of the composite read just resolved, the empty list
    when that is null. *)
Lemma step_replaces_polls (c : Client) (i : Input) :
  reachable c ->
  polls (component (ui (step i c))) = polls (component (ui c))
  \/ exists d, deliveredBy i c = Some d
               /\ polls (component (ui (step i c))) = or_empty d.
Proof.
  intros Hc. destruct (reachable_replaces c Hc) as [_ Ho].
  destruct i as [| |now|now i j|event session|n answer]; simpl.
  - left. reflexivity.
  - left. reflexivity.
  - left.
    destruct (render now (store (ui c)) (component (ui c))) eqn:Hr;
      try reflexivity.
    rewrite (render_retry _ _ _ _ _ _ Hr). reflexivity.
  - left.
    destruct (render now (store (ui c)) (component (ui c))); try reflexivity.
    destruct (nth_error cards i) as [card|]; [|reflexivity].
    destruct (nth_error (card_buttons card) j) as [b|]; [|reflexivity].
    destruct (button_disabled b); [reflexivity|].
    apply handleVote_keepsPolls.
  - left. apply onAuthStateChange_keepsPolls.
  - destruct (nth_error (outstanding c) n) as [[kind R q k]|] eqn:Hn;
      [|left; reflexivity].
    assert (Hs : resumable replacesPolls (Suspend kind q k)).
    { rewrite Forall_forall in Ho. apply Ho. apply (nth_error_In _ _ Hn). }
    destruct (Hs (answer R q)) as [Hp _]. apply (Hp (ui c)).
Qed.

(** C9: the poll collection is a list throughout: it starts as the empty
    list; a fetch replaces it by the list the backend returned, by the
    empty list when the response carries no data, and leaves it as it was
    on a failure; and in the event loop nothing else ever changes it. *)
Theorem polls_always_a_list :
  polls initialState = []
  /\ (forall (B : Type)
             (respond : forall R : Type, Request R -> B -> Response R * B)
             (b : B) (f : Frontend),
        match fst (respond _ SelectPolls b) with
        | Data None =>
            polls (component (frontend_after (run respond fetchPolls b f))) = []
        | Data (Some l) =>
            polls (component (frontend_after (run respond fetchPolls b f))) = l
        | Failure _ =>
            polls (component (frontend_after (run respond fetchPolls b f))) =
            polls (component f)
        end)
  /\ (forall (c : Client) (i : Input),
        reachable c ->
        polls (component (ui (step i c))) = polls (component (ui c))
        \/ exists d, deliveredBy i c = Some d
                     /\ polls (component (ui (step i c))) = or_empty d).
Proof.
  split; [reflexivity|]. split.
  - intros B respond b f. simpl.
    destruct (respond _ SelectPolls b) as [[[l|]|e] b']; reflexivity.
  - exact step_replaces_polls.
Qed.

(** C9, at a concrete input: the fetch of the mount resolves with no data,
    and the collection is the empty list. *)
Lemma polls_always_a_list_witness :
  reachable (step Mount initialClient)
  /\ deliveredBy (Resolve 0 noData) (step Mount initialClient) = Some None
  /\ polls (component (ui (step (Resolve 0 noData) (step Mount initialClient))))
     = [].
Proof.
  split; [constructor; constructor|]. split; [reflexivity|].
  destruct (proj2 (proj2 polls_always_a_list) (step Mount initialClient)
              (Resolve 0 noData)
              (reachable_step Mount initialClient reachable_initial))
    as [H | [d [Hd H]]].
  - exact H.
  - injection Hd as <-. exact H.
Defined.

(** ** The session handler *)

(** C10: a notification that carries no user leaves the store signed out
    (no user, administrator flag false), whatever its event, by the reset
    alone and without a request; and when the profile of a notification
    that carries a user fails to load, the store is signed out as well,
    both in a run to completion and when other tasks ran in between. *)
Theorem no_user_notification_signs_out (B : Type)
    (respond : forall R : Type, Request R -> B -> Response R * B)
    (b : B) (f : Frontend) (event : string) (session : option AuthSession) :
  (sessionUser session = None ->
   let r := run respond (onAuthStateChange event session) b f in
   store (frontend_after r) = signedOut
   /\ events r = [Performed StoreReset]
   /\ component (frontend_after r) = component f
   /\ outcome r = Returned tt)
  /\ (forall u e,
        sessionUser session = Some u ->
        fst (respond _ (SelectProfile (user_id u)) b) = Failure e ->
        let r := run respond (onAuthStateChange event session) b f in
        store (frontend_after r) = signedOut /\ outcome r = Returned tt)
  /\ (forall e f',
        match segment_paused (segment (onAuthStateChange event session) f) with
        | Waiting q k =>
            store (segment_frontend (segment (k (Failure e)) f')) = signedOut
        | _ => store (segment_frontend
                        (segment (onAuthStateChange event session) f))
               = signedOut
        end).
Proof.
  unfold onAuthStateChange. split; [|split].
  - intros ->. destruct (String.eqb event "SIGNED_OUT"); simpl; auto.
  - intros u e -> H.
    destruct (String.eqb event "SIGNED_OUT"); simpl; [auto|].
    rewrite H. simpl. auto.
  - intros e f'.
    destruct (String.eqb event "SIGNED_OUT"); simpl; [reflexivity|].
    destruct (sessionUser session); simpl; reflexivity.
Qed.

(** C10, at a concrete input: a token refresh without a session, while
    alice was signed in as an administrator. *)
Lemma no_user_notification_signs_out_witness :
  let f := mkFrontend (mkAuthStore (Some alice) true) initialState in
  let r := run (stateless unavailable)
             (onAuthStateChange "TOKEN_REFRESHED" None) tt f in
  store (frontend_after r) = signedOut
  /\ events r = [Performed StoreReset]
  /\ component (frontend_after r) = component f
  /\ outcome r = Returned tt.
Proof.
  apply (proj1 (no_user_notification_signs_out unit (stateless unavailable) tt
                  (mkFrontend (mkAuthStore (Some alice) true) initialState)
                  "TOKEN_REFRESHED" None)).
  reflexivity.
Defined.

(** ** The anonymous viewer *)

(** C8: for a viewer with no session user, whatever the administrator flag
    of the store: [App] shows the sign-in form in the place of the poll
    list, so that no poll card, no vote count and no chart is on the page;
    every option button that [PollList] renders for such a viewer is
    disabled, and a click on it does nothing; [handleVote] raises the
    sign-in toast and does nothing else: no request, no change of state.
    In the signed-out state of the store (administrator flag false)
    [PollList] on its own renders neither chart nor tally. *)
Theorem anonymous_viewer_cannot_vote (B : Type)
    (respond : forall R : Type, Request R -> B -> Response R * B)
    (b : B) (s : AppState) (now : Z) :
  user (store (app_frontend s)) = None ->
  let st := store (app_frontend s) in
  let cells := component (app_frontend s) in
  shownCards (appRender now s) = []
  /\ (app_loading s = false -> appRender now s = Page None SignInForm)
  /\ (forall poll btn,
        In btn (card_buttons (renderPoll now st cells poll)) ->
        button_disabled btn = true
        /\ events (run respond (click st cells btn) b (app_frontend s)) = []
        /\ frontend_after (run respond (click st cells btn) b (app_frontend s))
           = app_frontend s)
  /\ (forall pollId optionId,
        let r := run respond (invoke (app_frontend s) pollId optionId) b
                   (app_frontend s) in
        events r = [Performed (ToastError "Please sign in to vote")]
        /\ frontend_after r = app_frontend s
        /\ backend_after r = b
        /\ outcome r = Returned tt)
  /\ (isAdmin st = false ->
      forall poll,
        card_chart (renderPoll now st cells poll) = None
        /\ Forall (fun btn => button_tally btn = None)
             (card_buttons (renderPoll now st cells poll))).
Proof.
  intros Hu. simpl. split; [|split; [|split; [|split]]].
  - unfold appRender. destruct (app_loading s); [reflexivity|].
    rewrite Hu. reflexivity.
  - intros Hl. unfold appRender. rewrite Hl, Hu. reflexivity.
  - intros poll btn Hin. unfold renderPoll in Hin. simpl in Hin.
    apply in_map_iff in Hin. destruct Hin as [o [<- _]].
    unfold click, renderOption, disabled. simpl. rewrite Hu. simpl.
    repeat split.
  - intros pollId optionId. unfold invoke. rewrite Hu. simpl.
    destruct (app_frontend s) as [st cells]. destruct cells. repeat split.
  - intros Ha poll. unfold renderPoll, renderOption, resultsVisible. simpl.
    rewrite Hu, Ha. simpl. split; [reflexivity|].
    apply Forall_forall. intros btn Hin. apply in_map_iff in Hin.
    destruct Hin as [o [<- _]]. reflexivity.
Qed.

(** C8, at a concrete input: no user in the store, the administrator flag
    still set, and a voted poll in the cells of the poll list. *)
Lemma anonymous_viewer_cannot_vote_witness :
  let s := mkApp (mkFrontend staleAdmin
                    (mkState [favoriteColor] false None None)) false in
  user (store (app_frontend s)) = None
  /\ shownCards (appRender 1000%Z s) = []
  /\ appRender 1000%Z s = Page None SignInForm
  /\ (forall pollId optionId,
        events (run (stateless honest) (invoke (app_frontend s) pollId optionId)
                  tt (app_frontend s))
        = [Performed (ToastError "Please sign in to vote")]).
Proof.
  split; [reflexivity|].
  pose proof (anonymous_viewer_cannot_vote unit (stateless honest) tt
                (mkApp (mkFrontend staleAdmin
                          (mkState [favoriteColor] false None None)) false)
                1000%Z eq_refl) as [Hcards [Hform [_ [Hvote _]]]].
  split; [exact Hcards|]. split; [exact (Hform eq_refl)|].
  intros pollId optionId. exact (proj1 (Hvote pollId optionId)).
Defined.

(** ** The in-flight marker *)

Lemma filter_remove_nth_out {A : Type} (p : A -> bool) (n : nat) (l : list A)
    (x : A) :
  nth_error l n = Some x -> p x = false ->
  filter p (remove_nth n l) = filter p l.
Proof.
  revert n. induction l as [|y l IH]; intros n Hn Hp.
  - destruct n; discriminate.
  - destruct n as [|n].
    + injection Hn as ->. simpl. rewrite Hp. reflexivity.
    + rewrite remove_nth_cons. simpl. rewrite (IH n Hn Hp). reflexivity.
Qed.

Lemma filter_remove_nth_in {A : Type} (p : A -> bool) (n : nat) (l : list A)
    (x : A) :
  nth_error l n = Some x -> p x = true ->
  S (List.length (filter p (remove_nth n l))) = List.length (filter p l).
Proof.
  revert n. induction l as [|y l IH]; intros n Hn Hp.
  - destruct n; discriminate.
  - destruct n as [|n].
    + injection Hn as ->. simpl. rewrite Hp. reflexivity.
    + rewrite remove_nth_cons. simpl. destruct (p y); simpl;
        rewrite (IH n Hn Hp); reflexivity.
Qed.

(** Every button of the grid is the button of an option of a poll the
    component holds. *)
Lemma rendered_button (now : Z) (s : AuthStore) (st : PollListState)
    (cards : list PollCard) (i j : nat) (card : PollCard) (b : OptionButton) :
  render now s st = PollGrid cards ->
  nth_error cards i = Some card ->
  nth_error (card_buttons card) j = Some b ->
  exists poll o,
    In poll (polls st) /\ In o (poll_options poll)
    /\ b = renderOption now s st poll o.
Proof.
  intros Hr Hi Hj.
  assert (Hc : cards = map (renderPoll now s st) (polls st)).
  { unfold render in Hr. destruct (loading st); [discriminate|].
    destruct (error st) as [m|]; [destruct (truthy_string m); [discriminate|]|];
      destruct (polls st); try discriminate; injection Hr as <-; reflexivity. }
  subst cards. apply nth_error_In in Hi. apply in_map_iff in Hi.
  destruct Hi as [poll [<- Hp]]. apply nth_error_In in Hj. simpl in Hj.
  apply in_map_iff in Hj. destruct Hj as [o [<- Ho]].
  exists poll, o. auto.
Qed.

Ltac marks :=
  simpl;
  repeat match goal with
         | |- True => exact Logic.I
         | |- marksDone _ _ => intros ?; simpl; reflexivity
         | |- _ /\ _ => split
         | |- forall r : Response _, _ =>
             let d := fresh "d" in
             let e := fresh "e" in
             intros [d|e]; simpl;
             try match type of d with
                 | option string => destruct d; simpl
                 | unit => destruct d; simpl
                 end
         end.

Lemma fetchPolls_marks :
  every_resumption (fun _ _ _ t => marksDone PollFetch t) fetchPolls.
Proof. marks. Qed.

Lemma onAuthStateChange_marks (event : string) (session : option AuthSession) :
  every_resumption (fun _ _ _ t => marksDone AuthChange t)
    (onAuthStateChange event session).
Proof.
  unfold onAuthStateChange.
  destruct (String.eqb event "SIGNED_OUT"); [|destruct (sessionUser session)];
    marks.
Qed.

Lemma handleVote_marks (u : option User) (m : option string)
    (pollId optionId : string) :
  every_resumption (fun _ _ _ t => marksDone VoteSubmission t)
    (handleVote u m pollId optionId).
Proof.
  unfold handleVote. destruct u as [u|]; [destruct (truthy m)|]; marks.
Qed.

Lemma submissions_schedule (kind : Kind) (t : Task unit) (c : Client) :
  submissions (schedule kind t c) =
  submissions c ++
    match segment_paused (segment t (ui c)) with
    | Waiting q k =>
        if isVoteSubmission kind then [Suspend kind q k] else []
    | _ => []
    end.
Proof.
  unfold submissions, schedule. simpl. rewrite filter_app.
  destruct (segment_paused (segment t (ui c))); reflexivity.
Qed.

Lemma schedule_disciplined (kind : Kind) (t : Task unit) (c : Client) :
  every_resumption (fun _ _ _ t => marksDone kind t) t ->
  Forall disciplined (outstanding c) ->
  Forall disciplined (outstanding (schedule kind t c)).
Proof.
  intros Ht Hc. unfold schedule. simpl. apply Forall_app. split; [exact Hc|].
  pose proof (segment_waiting _ t (ui c) Ht) as Hw.
  destruct (segment_paused (segment t (ui c))); constructor; auto.
Qed.

(** Scheduling a task that is no vote submission and whose next segment
    leaves the marker alone. *)
Lemma schedule_quiet (strict : bool) (kind : Kind) (t : Task unit)
    (c : Client) :
  isVoteSubmission kind = false ->
  (forall f, marker (segment_frontend (segment t f)) = marker f) ->
  every_resumption (fun _ _ _ t => marksDone kind t) t ->
  singleFlight strict c -> singleFlight strict (schedule kind t c).
Proof.
  intros Hk Hq Ht [Hd [Hn Hs]].
  assert (Hsub : submissions (schedule kind t c) = submissions c).
  { rewrite submissions_schedule, Hk.
    destruct (segment_paused (segment t (ui c))); apply app_nil_r. }
  assert (Hm : marker (ui (schedule kind t c)) = marker (ui c)) by apply Hq.
  split; [apply schedule_disciplined; assumption|].
  rewrite Hsub, Hm. split; assumption.
Qed.

Lemma marksDone_quiet (kind : Kind) (t : Task unit) :
  isVoteSubmission kind = false -> marksDone kind t ->
  forall f, marker (segment_frontend (segment t f)) = marker f.
Proof.
  intros Hk Ht f. specialize (Ht f). rewrite Hk in Ht.
  destruct (segment_paused (segment t f)); exact Ht.
Qed.

Lemma fetchPolls_quiet (f : Frontend) :
  marker (segment_frontend (segment fetchPolls f)) = marker f.
Proof. reflexivity. Qed.

Lemma onAuthStateChange_quiet (event : string) (session : option AuthSession)
    (f : Frontend) :
  marker (segment_frontend (segment (onAuthStateChange event session) f)) =
  marker f.
Proof.
  unfold onAuthStateChange.
  destruct (String.eqb event "SIGNED_OUT"); [|destruct (sessionUser session)];
    reflexivity.
Qed.

Lemma click_singleFlight (strict : bool) (c : Client) (poll : Poll)
    (optionId : string) :
  (strict = true -> truthy_string (poll_id poll) = true) ->
  singleFlight strict c ->
  singleFlight strict
    (schedule VoteSubmission
       (handleVote (user (store (ui c))) (votingInProgress (component (ui c)))
          (poll_id poll) optionId) c).
Proof.
  intros Hkey [Hd [Hn Hs]].
  split; [apply schedule_disciplined; [apply handleVote_marks | exact Hd]|].
  rewrite submissions_schedule. unfold handleVote.
  destruct (user (store (ui c))) as [u|]; simpl.
  - destruct (truthy (votingInProgress (component (ui c)))) eqn:Hm; simpl.
    + rewrite app_nil_r. destruct c as [[s st] out hist]. destruct st.
      split; assumption.
    + split.
      * intros H. apply app_eq_nil in H. destruct H as [_ H]. discriminate.
      * intros Hstrict. destruct (Hs Hstrict) as [_ Ht].
        assert (He : submissions c = []).
        { destruct (submissions c) eqn:E; [reflexivity|].
          unfold marker in Ht. rewrite Ht in Hm; [discriminate|].
          discriminate. }
        rewrite He. simpl. split; [apply le_n|].
        intros _. unfold marker. simpl. apply Hkey, Hstrict.
  - rewrite app_nil_r. destruct c as [[s st] out hist]. destruct st.
    split; assumption.
Qed.

Lemma step_singleFlight (strict : bool) (i : Input) (c : Client) :
  (strict = true -> wellKeyed c) ->
  singleFlight strict c -> singleFlight strict (step i c).
Proof.
  intros Hkey Hc. destruct i as [| |now|now i j|event session|n answer]; simpl.
  - apply schedule_quiet; auto. apply fetchPolls_marks.
  - apply schedule_quiet; auto. apply fetchPolls_marks.
  - destruct (render now (store (ui c)) (component (ui c))) eqn:Hr; try exact Hc.
    rewrite (render_retry _ _ _ _ _ _ Hr).
    apply schedule_quiet; auto. apply fetchPolls_marks.
  - destruct (render now (store (ui c)) (component (ui c))) eqn:Hr; try exact Hc.
    destruct (nth_error cards i) as [card|] eqn:Hi; [|exact Hc].
    destruct (nth_error (card_buttons card) j) as [b|] eqn:Hj; [|exact Hc].
    destruct (button_disabled b) eqn:Hb; [exact Hc|].
    destruct (rendered_button _ _ _ _ _ _ _ _ Hr Hi Hj) as [poll [o [Hp [Ho ->]]]].
    simpl. apply click_singleFlight; [|exact Hc].
    intros Hstrict. specialize (Hkey Hstrict). unfold wellKeyed in Hkey.
    rewrite Forall_forall in Hkey. apply Hkey, Hp.
  - apply schedule_quiet; auto.
    + apply onAuthStateChange_quiet.
    + apply onAuthStateChange_marks.
  - destruct (nth_error (outstanding c) n) as [[kind R q k]|] eqn:Hn;
      [|exact Hc].
    destruct Hc as [Hd [Hnone Hs]].
    assert (Hk : disciplined (Suspend kind q k)).
    { rewrite Forall_forall in Hd. apply Hd. apply (nth_error_In _ _ Hn). }
    destruct (Hk (answer R q)) as [Hm Hr]. simpl in Hm, Hr.
    set (c0 := mkClient (ui c) (remove_nth n (outstanding c))
                 (history c ++ [Requested q (answer R q)])).
    assert (Hd0 : Forall disciplined (outstanding c0))
      by (apply Forall_remove_nth, Hd).
    destruct (isVoteSubmission kind) eqn:Hkind.
    + pose proof (filter_remove_nth_in
                    (fun s => isVoteSubmission (kindOf s)) n (outstanding c)
                    (Suspend kind q k) Hn Hkind) as Hlen.
      fold (submissions c) in Hlen.
      change (filter (fun s => isVoteSubmission (kindOf s))
                (remove_nth n (outstanding c))) with (submissions c0) in Hlen.
      split; [apply schedule_disciplined; assumption|].
      rewrite submissions_schedule, Hkind.
      specialize (Hm (ui c0)). rewrite Hkind in Hm.
      change (ui (schedule kind (k (answer R q)) c0))
        with (segment_frontend (segment (k (answer R q)) (ui c0))).
      destruct (segment_paused (segment (k (answer R q)) (ui c0))).
      * rewrite app_nil_r. split; [intros _; exact Hm|].
        intros Hstrict. destruct (Hs Hstrict) as [Hle _].
        rewrite <- Hlen in Hle. apply le_S_n in Hle. apply Nat.le_0_r in Hle.
        apply length_zero_iff_nil in Hle. rewrite Hle. simpl.
        split; [apply le_0_n | intros H; contradiction H; reflexivity].
      * rewrite app_nil_r. split; [intros _; exact Hm|].
        intros Hstrict. destruct (Hs Hstrict) as [Hle _].
        rewrite <- Hlen in Hle. apply le_S_n in Hle. apply Nat.le_0_r in Hle.
        apply length_zero_iff_nil in Hle. rewrite Hle. simpl.
        split; [apply le_0_n | intros H; contradiction H; reflexivity].
      * split.
        -- intros H. apply app_eq_nil in H. destruct H as [_ H]. discriminate.
        -- intros Hstrict. destruct (Hs Hstrict) as [Hle Ht].
           rewrite length_app. simpl. rewrite Nat.add_1_r, Hlen.
           split; [exact Hle|]. intros _.
           change (ui c0) with (ui c) in Hm. rewrite Hm. apply Ht.
           intros E. rewrite E in Hlen. discriminate.
    + apply schedule_quiet; auto.
      * apply (marksDone_quiet kind); assumption.
      * pose proof (filter_remove_nth_out
                      (fun s => isVoteSubmission (kindOf s)) n (outstanding c)
                      (Suspend kind q k) Hn Hkind) as Hsame.
        split; [exact Hd0|]. unfold submissions at 1 2 3. unfold c0 at 1 3 4.
        simpl. rewrite Hsame. split; assumption.
Qed.

Lemma initial_singleFlight (strict : bool) : singleFlight strict initialClient.
Proof.
  split; [constructor|]. split; [reflexivity|].
  intros _. split; [apply le_0_n | intros H; contradiction H; reflexivity].
Qed.

Lemma reachable_singleFlight (c : Client) :
  reachable c -> singleFlight false c.
Proof.
  induction 1 as [|i c Hc IH].
  - apply initial_singleFlight.
  - apply step_singleFlight; [discriminate | exact IH].
Qed.

(** Whatever the identifiers: the marker is null whenever no vote
    submission is in flight. *)
Lemma marker_null_when_idle (c : Client) :
  reachable c -> submissions c = [] -> marker (ui c) = None.
Proof.
  intros Hc. apply (reachable_singleFlight c Hc).
Qed.

(** A vote submission that resumes is still in flight afterwards, or it
    has ended and cleared the marker. *)
Lemma resumed_submission_clears_marker (c : Client) (n : nat)
    (answer : Oracle) (s : Suspended) :
  Forall disciplined (outstanding c) ->
  nth_error (outstanding c) n = Some s ->
  isVoteSubmission (kindOf s) = true ->
  List.length (submissions (step (Resolve n answer) c)) =
    List.length (submissions c)
  \/ marker (ui (step (Resolve n answer) c)) = None.
Proof.
  intros Hd Hn Hkind.
  assert (Hk : disciplined s).
  { rewrite Forall_forall in Hd. apply Hd. apply (nth_error_In _ _ Hn). }
  destruct s as [kind R q k]. simpl in Hkind. simpl. rewrite Hn.
  destruct (Hk (answer R q)) as [Hm _]. simpl in Hm.
  set (c0 := mkClient (ui c) (remove_nth n (outstanding c))
               (history c ++ [Requested q (answer R q)])).
  pose proof (filter_remove_nth_in
                (fun s => isVoteSubmission (kindOf s)) n (outstanding c)
                (Suspend kind q k) Hn Hkind) as Hlen.
  fold (submissions c) in Hlen.
  change (filter (fun s => isVoteSubmission (kindOf s))
            (remove_nth n (outstanding c))) with (submissions c0) in Hlen.
  rewrite submissions_schedule, Hkind.
  specialize (Hm (ui c0)). rewrite Hkind in Hm.
  change (ui (schedule kind (k (answer R q)) c0))
    with (segment_frontend (segment (k (answer R q)) (ui c0))).
  destruct (segment_paused (segment (k (answer R q)) (ui c0))).
  - right. exact Hm.
  - right. exact Hm.
  - left. rewrite length_app. simpl. rewrite Nat.add_1_r. exact Hlen.
Qed.


(** ** The page: one instance of the poll list after the other *)

Lemma singleFlight_same (strict : bool) (c c' : Client) :
  outstanding c' = outstanding c -> marker (ui c') = marker (ui c) ->
  singleFlight strict c -> singleFlight strict c'.
Proof.
  intros Ho Hm. unfold singleFlight, submissions. rewrite Ho, Hm. auto.
Qed.

Lemma perform_component (a : Action) (f : Frontend) :
  isSetter a = false -> component (perform a f) = component f.
Proof. destruct a; simpl; intros H; try discriminate; reflexivity. Qed.

(** A task of [App] leaves the cells of the poll list alone. *)
Lemma asegment_storeOnly (t : AppTask unit) (s : AppState) :
  storeOnly t ->
  component (app_frontend (asegment_state (asegment t s))) =
    component (app_frontend s)
  /\ match asegment_paused (asegment t s) with
     | AppWaiting q k => forall r, storeOnly (k r)
     | _ => True
     end.
Proof.
  revert s. induction t as [a|e|a k IH|R q k IH]; intros s H; simpl.
  - auto.
  - auto.
  - destruct H as [Ha Hk]. destruct (IH (performApp a s) Hk) as [H1 H2].
    split; [|exact H2]. rewrite H1.
    destruct a as [a'|l]; simpl; [apply perform_component, Ha | reflexivity].
  - split; [reflexivity | exact H].
Qed.

Ltac store_only :=
  simpl;
  repeat match goal with
         | |- True => exact Logic.I
         | |- _ = _ => reflexivity
         | |- _ /\ _ => split
         | |- forall r : Response _, _ =>
             let d := fresh "d" in
             let e := fresh "e" in
             intros [d|e]; simpl
         | |- context [sessionUser ?x] => destruct (sessionUser x); simpl
         end.

Lemma initializeAuth_storeOnly : storeOnly initializeAuth.
Proof. store_only. Qed.

Lemma handleSignOut_storeOnly : storeOnly handleSignOut.
Proof. store_only. Qed.

Lemma scheduleApp_invariant (strict : bool) (t : AppTask unit)
    (p : PageState) :
  storeOnly t ->
  singleFlight strict (page_client p) ->
  Forall storeOnlyTask (page_tasks p) ->
  singleFlight strict (page_client (scheduleApp t p))
  /\ Forall storeOnlyTask (page_tasks (scheduleApp t p))
  /\ outstanding (page_client (scheduleApp t p)) = outstanding (page_client p).
Proof.
  intros Ht Hc Hp.
  destruct (asegment_storeOnly t (appState p) Ht) as [Hcells Hnext].
  split; [|split].
  - apply (singleFlight_same strict (page_client p)); [reflexivity | | exact Hc].
    unfold marker, scheduleApp. simpl. rewrite Hcells. reflexivity.
  - unfold scheduleApp. simpl. apply Forall_app. split; [exact Hp|].
    destruct (asegment_paused (asegment t (appState p))); constructor; auto.
  - reflexivity.
Qed.

(** The store handler and the tasks it has in flight start no task of a
    poll list. *)
Lemma step_keeps_off (i : Input) (c : Client) :
  match i with
  | AuthStateChange _ _ | Resolve _ _ => True
  | _ => False
  end ->
  Forall (fun s => isPollTask s = false) (outstanding c) ->
  Forall (fun s => isPollTask s = false) (outstanding (step i c)).
Proof.
  intros Hi Hc.
  destruct i as [| |now|now i j|event session|n answer]; try contradiction;
    simpl.
  - apply Forall_app. split; [exact Hc|].
    destruct (segment_paused
                (segment (onAuthStateChange event session) (ui c)));
      constructor; auto.
  - destruct (nth_error (outstanding c) n) as [[kind R q k]|] eqn:Hn;
      [|exact Hc].
    assert (Hk : isPollTask (Suspend kind q k) = false).
    { rewrite Forall_forall in Hc. apply Hc. apply (nth_error_In _ _ Hn). }
    unfold schedule. simpl. apply Forall_app.
    split; [apply Forall_remove_nth, Hc|].
    destruct (segment_paused _); constructor; auto.
Qed.

Lemma Forall_filter {A : Type} (P : A -> Prop) (g : A -> bool) (l : list A) :
  Forall P l -> Forall P (filter g l).
Proof.
  intros H. rewrite Forall_forall in *. intros x Hx.
  apply filter_In in Hx. apply H, Hx.
Qed.

Lemma no_poll_task_no_submission (l : list Suspended) :
  Forall (fun s => isPollTask s = false) l ->
  filter (fun s => isVoteSubmission (kindOf s)) l = [].
Proof.
  induction 1 as [|s l Hs _ IH]; simpl; [reflexivity|].
  destruct s as [[| |] R q k]; simpl in *; try discriminate; exact IH.
Qed.

Lemma unmountPollList_invariant (strict : bool) (p : PageState) :
  singleFlight strict (page_client p) ->
  singleFlight strict (page_client (unmountPollList p))
  /\ Forall (fun s => isPollTask s = false)
       (outstanding (page_client (unmountPollList p))).
Proof.
  intros [Hd _].
  assert (Hoff : Forall (fun s => isPollTask s = false)
                   (outstanding (page_client (unmountPollList p)))).
  { simpl. apply Forall_forall. intros s Hs. apply filter_In in Hs.
    destruct Hs as [_ Hs]. destruct (isPollTask s); [discriminate|reflexivity]. }
  split; [|exact Hoff].
  pose proof (no_poll_task_no_submission _ Hoff) as Hnone.
  split; [apply Forall_filter, Hd|].
  unfold submissions. rewrite Hnone. split; [reflexivity|].
  intros _. split; [apply le_0_n | intros H; contradiction H; reflexivity].
Qed.

Lemma mountPollList_invariant (strict : bool) (p : PageState) :
  Forall disciplined (outstanding (page_client p)) ->
  Forall (fun s => isPollTask s = false) (outstanding (page_client p)) ->
  singleFlight strict (page_client (mountPollList p))
  /\ mounted (mountPollList p) = mounted p.
Proof.
  intros Hd Hoff. split; [|reflexivity].
  unfold mountPollList, withClient. cbn [page_client].
  apply step_singleFlight; [intros _; constructor|].
  split; [exact Hd|].
  unfold submissions. cbn [outstanding].
  rewrite (no_poll_task_no_submission _ Hoff).
  split; [reflexivity|].
  intros _. split; [apply le_0_n | intros H; contradiction H; reflexivity].
Qed.

Lemma remount_invariant (strict : bool) (was : bool) (p : PageState) :
  singleFlight strict (page_client p) ->
  Forall storeOnlyTask (page_tasks p) ->
  (was = false ->
   Forall (fun s => isPollTask s = false) (outstanding (page_client p))) ->
  pageInvariant strict (remount was p).
Proof.
  intros Hc Ht Hoff. unfold remount.
  destruct was; destruct (mounted p) eqn:Hm.
  - split; [exact Hc|]. split; [exact Ht|]. rewrite Hm. discriminate.
  - destruct (unmountPollList_invariant strict p Hc) as [H1 H2].
    split; [exact H1|]. split; [exact Ht|]. intros _. exact H2.
  - destruct (mountPollList_invariant strict p (proj1 Hc) (Hoff eq_refl))
      as [H1 H2].
    split; [exact H1|]. split; [exact Ht|]. rewrite H2, Hm. discriminate.
  - split; [exact Hc|]. split; [exact Ht|]. intros _. apply Hoff. reflexivity.
Qed.

Lemma pageAct_invariant (strict : bool) (i : PageInput) (p : PageState) :
  (strict = true -> wellKeyed (page_client p)) ->
  pageInvariant strict p ->
  singleFlight strict (page_client (pageAct i p))
  /\ Forall storeOnlyTask (page_tasks (pageAct i p))
  /\ (mounted p = false ->
      Forall (fun s => isPollTask s = false)
        (outstanding (page_client (pageAct i p)))).
Proof.
  intros Hkey [Hc [Ht Hoff]].
  destruct i as [|now|now i j| |event session|n answer|n answer|n answer];
    unfold pageAct, withClient; cbn [page_client page_tasks].
  - destruct (mounted p) eqn:Hm; cbn [page_client page_tasks].
    + split; [apply (step_singleFlight strict ChangeNotification);
              assumption|].
      split; [exact Ht | discriminate].
    + auto.
  - destruct (mounted p) eqn:Hm; cbn [page_client page_tasks].
    + split; [apply (step_singleFlight strict (ClickTryAgain now));
              assumption|].
      split; [exact Ht | discriminate].
    + auto.
  - destruct (mounted p) eqn:Hm; cbn [page_client page_tasks].
    + split; [apply (step_singleFlight strict (ClickOption now i j));
              assumption|].
      split; [exact Ht | discriminate].
    + auto.
  - destruct (mounted p) eqn:Hm.
    + destruct (scheduleApp_invariant strict handleSignOut p
                  handleSignOut_storeOnly Hc Ht) as [H1 [H2 _]].
      split; [exact H1|]. split; [exact H2 | discriminate].
    + auto.
  - split; [apply (step_singleFlight strict (AuthStateChange event session));
            assumption|].
    split; [exact Ht|]. intros Hm.
    apply (step_keeps_off (AuthStateChange event session));
      [exact Logic.I | apply Hoff, Hm].
  - split; [apply (step_singleFlight strict (Resolve n answer)); assumption|].
    split; [exact Ht|]. intros Hm.
    apply (step_keeps_off (Resolve n answer));
      [exact Logic.I | apply Hoff, Hm].
  - destruct (nth_error (page_tasks p) n) as [[R q k]|] eqn:Hn; [|auto].
    assert (Hk : storeOnlyTask (AppSuspend q k)).
    { rewrite Forall_forall in Ht. apply Ht. apply (nth_error_In _ _ Hn). }
    set (p0 := mkPage (page_client p) (page_loading p)
                 (remove_nth n (page_tasks p)) (page_orphans p)
                 (page_log p ++ [AppRequested q (answer R q)])).
    destruct (scheduleApp_invariant strict (k (answer R q)) p0
                (Hk (answer R q)) Hc (Forall_remove_nth _ _ _ Ht))
      as [H1 [H2 H3]].
    split; [exact H1|]. split; [exact H2|]. rewrite H3. exact Hoff.
  - unfold resumeOrphan.
    destruct (nth_error (page_orphans p) n) as [[kind R q k]|]; [|auto].
    simpl. split; [|split; [exact Ht | exact Hoff]].
    apply (singleFlight_same strict (page_client p));
      [reflexivity | reflexivity | exact Hc].
Qed.

Lemma pageStep_invariant (strict : bool) (i : PageInput) (p : PageState) :
  (strict = true -> wellKeyed (page_client p)) ->
  pageInvariant strict p -> pageInvariant strict (pageStep i p).
Proof.
  intros Hkey Hp.
  destruct (pageAct_invariant strict i p Hkey Hp) as [H1 [H2 H3]].
  apply remount_invariant; assumption.
Qed.

Lemma initialPage_invariant (strict : bool) : pageInvariant strict initialPage.
Proof.
  split; [apply initial_singleFlight|]. split.
  - constructor; [|constructor]. intros r.
    exact (initializeAuth_storeOnly r).
  - intros _. constructor.
Qed.

Lemma pageReachable_invariant (p : PageState) :
  pageReachable p -> pageInvariant false p.
Proof.
  induction 1 as [|i p Hp IH].
  - apply initialPage_invariant.
  - apply pageStep_invariant; [discriminate | exact IH].
Qed.

Lemma pageReachableKeyed_wellKeyed (p : PageState) :
  pageReachableKeyed p -> wellKeyed (page_client p).
Proof.
  intros [|i p' _ H]; [constructor | exact H].
Qed.

Lemma pageReachableKeyed_invariant (p : PageState) :
  pageReachableKeyed p -> pageInvariant true p.
Proof.
  induction 1 as [|i p Hp IH Hk].
  - apply initialPage_invariant.
  - apply pageStep_invariant; [|exact IH].
    intros _. apply pageReachableKeyed_wellKeyed, Hp.
Qed.

Lemma pageReachable_steps (inputs : list PageInput) (p : PageState) :
  pageReachable p -> pageReachable (pageSteps inputs p).
Proof.
  revert p. induction inputs as [|i inputs IH]; intros p H; simpl.
  - exact H.
  - apply IH. constructor. exact H.
Qed.

(** What holds of every instance in the event loop holds of the instance
    on the page: an invariant of the loop that is about the cells of the
    poll list, and that their initial values satisfy, is an invariant of
    the page. *)
Section PageLoopInvariant.

Variable I : Frontend -> Prop.
Variable P : Resumption.

Hypothesis resumption_keeps :
  forall R (q : Request R) r t, P R q r t -> keeps I t.
Hypothesis fetchPolls_sound : sound I P fetchPolls.
Hypothesis handleVote_sound :
  forall u m pollId optionId, sound I P (handleVote u m pollId optionId).
Hypothesis onAuthStateChange_sound :
  forall event session, sound I P (onAuthStateChange event session).
Hypothesis of_the_cells :
  forall f f', component f' = component f -> I f -> I f'.
Hypothesis of_a_new_instance : forall s, I (mkFrontend s initialState).

Lemma scheduleApp_lifts (t : AppTask unit) (p : PageState) :
  storeOnly t ->
  invariant I P (page_client p) ->
  invariant I P (page_client (scheduleApp t p)).
Proof.
  intros Ht [Hi Ho].
  destruct (asegment_storeOnly t (appState p) Ht) as [Hcells _].
  split; [|exact Ho].
  apply (of_the_cells (ui (page_client p))); [exact Hcells | exact Hi].
Qed.

Lemma pageAct_lifts (i : PageInput) (p : PageState) :
  Forall storeOnlyTask (page_tasks p) ->
  invariant I P (page_client p) ->
  invariant I P (page_client (pageAct i p)).
Proof.
  intros Ht Hc.
  pose proof (step_invariant I P resumption_keeps fetchPolls_sound
                handleVote_sound onAuthStateChange_sound) as Hstep.
  destruct i as [|now|now i j| |event session|n answer|n answer|n answer];
    unfold pageAct, withClient.
  - destruct (mounted p); [apply Hstep|]; exact Hc.
  - destruct (mounted p); [apply Hstep|]; exact Hc.
  - destruct (mounted p); [apply Hstep|]; exact Hc.
  - destruct (mounted p); [|exact Hc].
    apply scheduleApp_lifts; [exact handleSignOut_storeOnly | exact Hc].
  - apply Hstep, Hc.
  - apply Hstep, Hc.
  - destruct (nth_error (page_tasks p) n) as [[R q k]|] eqn:Hn; [|exact Hc].
    assert (Hk : storeOnlyTask (AppSuspend q k)).
    { rewrite Forall_forall in Ht. apply Ht. apply (nth_error_In _ _ Hn). }
    apply scheduleApp_lifts; [apply Hk | exact Hc].
  - unfold resumeOrphan.
    destruct (nth_error (page_orphans p) n) as [[kind R q k]|]; [|exact Hc].
    destruct Hc as [Hi Ho]. split; [|exact Ho].
    apply (of_the_cells (ui (page_client p))); [reflexivity | exact Hi].
Qed.

Lemma pageStep_lifts (i : PageInput) (p : PageState) :
  Forall storeOnlyTask (page_tasks p) ->
  invariant I P (page_client p) ->
  invariant I P (page_client (pageStep i p)).
Proof.
  intros Ht Hc. pose proof (pageAct_lifts i p Ht Hc) as [Hi Ho].
  unfold pageStep, remount.
  destruct (mounted p); destruct (mounted (pageAct i p)).
  - split; assumption.
  - split; [apply of_a_new_instance | apply Forall_filter, Ho].
  - unfold mountPollList, withClient. cbn [page_client].
    apply (step_invariant I P resumption_keeps fetchPolls_sound
             handleVote_sound onAuthStateChange_sound).
    split; [apply of_a_new_instance | exact Ho].
  - split; assumption.
Qed.

Lemma pageReachable_lifts (p : PageState) :
  pageReachable p -> invariant I P (page_client p).
Proof.
  induction 1 as [|i p Hp IH].
  - split; [apply of_a_new_instance | constructor].
  - apply pageStep_lifts; [|exact IH].
    apply (pageReachable_invariant p Hp).
Qed.

End PageLoopInvariant.

(** On the page as in the event loop: the error cell of the poll list holds
    nothing but the message of [fetchPolls], and when it is set the poll
    list renders the error panel, whose action is [fetchPolls], and no poll
    card. *)
Lemma page_error_panel (p : PageState) (now : Z) (m : string) :
  pageReachable p ->
  error (component (ui (page_client p))) = Some m ->
  render now (store (ui (page_client p))) (component (ui (page_client p))) =
    ErrorPanel m "Try Again" fetchPolls.
Proof.
  intros Hp. apply errorSettled_renders_error.
  apply (pageReachable_lifts errorSettled surfacesFailure).
  - intros R q r t [H _]. exact H.
  - exact fetchPolls_surfaces.
  - exact handleVote_surfaces.
  - exact onAuthStateChange_surfaces.
  - intros f f' E H m'. rewrite E. apply H.
  - intros s m'. simpl. discriminate.
  - exact Hp.
Qed.

(** While a submission of the poll list on the page is in flight, the
    marker is truthy. *)
Lemma marker_set_while_submitting (p : PageState) :
  pageReachableKeyed p ->
  submissions (page_client p) <> [] ->
  truthy (marker (ui (page_client p))) = true.
Proof.
  intros Hp Hne.
  destruct (pageReachableKeyed_invariant p Hp) as [[_ [_ Hs]] _].
  apply (Hs eq_refl), Hne.
Qed.

(** C1, as stated, fails, in two ways.  The button is disabled by the
    render, and [handleVote] does not look at the clock: the button of an
    open poll, rendered at the instant 1000, is still enabled on the screen
    at the instant 3000, when the poll has ended, and a click inserts a
    vote.  And the marker belongs to the instance of the poll list: after a
    sign-out and a new sign-in the submission of the earlier instance is
    still in flight, the marker of the new instance is null, and a click on
    Blue inserts a vote. *)
Lemma click_inserts_after_the_end :
  (let s := store aliceBrowsing in
   let st := component aliceBrowsing in
   let button := renderOption 1000%Z s st blueBallot blue in
   button_disabled button = false
   /\ isPollActive 3000%Z blueBallot = false
   /\ existsb isInsert
        (events (run serve (click s st button) (reliable colours)
                   aliceBrowsing)) = true)
  /\ (let p := pageSteps aliceReturns initialPage in
      let s := store (ui (page_client p)) in
      let st := component (ui (page_client p)) in
      pageReachable p
      /\ wellKeyed (page_client p)
      /\ List.length (orphanSubmissions p) = 1
      /\ existsb isInsert
           (events (run serve (click s st (renderOption 1000%Z s st blueBallot blue))
                      (reliable colours) (ui (page_client p)))) = true).
Proof.
  split; [repeat split|].
  split; [apply pageReachable_steps; constructor|].
  split; [vm_compute; repeat constructor|].
  split; reflexivity.
Qed.

(** C1, amended: for every poll and option rendered, a click on the option
    inserts a vote only when a user is present, that user has not already
    voted on this poll (neither by the fetched votes nor by the existence
    check), the poll was open at the instant of the render, and no vote
    submission of the poll list on the page is in flight, for any poll
    (polls with non-empty identifiers). *)
Theorem click_inserts_only_when_allowed (B : Type)
    (respond : forall R : Type, Request R -> B -> Response R * B)
    (b : B) (p : PageState) (now : Z) (poll : Poll) (o : PollOption) :
  pageReachableKeyed p ->
  let s := store (ui (page_client p)) in
  let st := component (ui (page_client p)) in
  existsb isInsert
    (events (run respond (click s st (renderOption now s st poll o)) b
               (ui (page_client p)))) = true ->
  present (user s) = true
  /\ hasVoted (user s) poll = false
  /\ isPollActive now poll = true
  /\ submissions (page_client p) = []
  /\ (forall u, user s = Some u ->
      existsb (foundVote (poll_id poll) (user_id u))
        (events (run respond (click s st (renderOption now s st poll o)) b
                   (ui (page_client p)))) = false).
Proof.
  intros Hp s st Hins.
  assert (Hui : ui (page_client p) = mkFrontend s st)
    by (subst s st; destruct (ui (page_client p)); reflexivity).
  rewrite Hui in Hins |- *.
  destruct (proj1 (click_insert_conditions B respond b now s st poll o) Hins)
    as [H1 [H2 [H3 [H4 H5]]]].
  repeat split; try assumption.
  destruct (submissions (page_client p)) eqn:E; [reflexivity|].
  assert (Ht : truthy (marker (ui (page_client p))) = true).
  { apply marker_set_while_submitting; [exact Hp|]. rewrite E. discriminate. }
  unfold marker in Ht. fold st in Ht. rewrite Ht in H4. discriminate.
Qed.

(** C1, amended, at a concrete input: alice, on the page with the poll
    "Favorite color", clicks Blue, and the vote is inserted. *)
Lemma click_inserts_only_when_allowed_witness :
  let p := pageSteps aliceArrives initialPage in
  let s := store (ui (page_client p)) in
  let st := component (ui (page_client p)) in
  pageReachableKeyed p
  /\ existsb isInsert
       (events (run serve (click s st (renderOption 1000%Z s st blueBallot blue))
                  (reliable colours) (ui (page_client p)))) = true
  /\ present (user s) = true
  /\ hasVoted (user s) blueBallot = false
  /\ isPollActive 1000%Z blueBallot = true
  /\ submissions (page_client p) = [].
Proof.
  assert (Hk : pageReachableKeyed (pageSteps aliceArrives initialPage)).
  { unfold aliceArrives, pageSteps. cbn [fold_left].
    repeat (apply keyed_step; [|vm_compute; repeat constructor]).
    apply keyed_initial. }
  split; [exact Hk|]. split; [reflexivity|].
  destruct (click_inserts_only_when_allowed Server serve (reliable colours)
              (pageSteps aliceArrives initialPage) 1000%Z blueBallot blue
              Hk eq_refl) as [H1 [H2 [H3 [H4 _]]]].
  repeat split; assumption.
Defined.




(** C7, as stated, fails: the marker belongs to the instance of the poll
    list, and a request in flight is not aborted when the instance is
    unmounted.  alice clicks Red, is signed out and signs in again before
    the existence check is answered, and clicks Blue on the new poll list:
    the submission of the earlier instance and that of the new one are in
    flight together.  No poll has an empty identifier. *)
Lemma two_submissions_after_remount :
  let p := pageSteps aliceClicksBlue initialPage in
  pageReachableKeyed p
  /\ List.length (submissions (page_client p)) = 1
  /\ List.length (orphanSubmissions p) = 1
  /\ List.length (submissions (page_client p) ++ orphanSubmissions p) = 2.
Proof.
  split; [|repeat split].
  unfold aliceClicksBlue, aliceReturns, aliceClicksRed, aliceArrives, pageSteps.
  cbn [fold_left app].
  repeat (apply keyed_step; [|vm_compute; repeat constructor]).
  apply keyed_initial.
Qed.

(** C7, amended: every admitted submission of the poll list on the page
    clears the marker of that list when it completes, successful, "already
    voted" or failed at the check or at the insert, in a run to completion
    and under every interleaving on the page; the marker of the poll list
    on the page is null whenever none of its submissions is in flight; and
    at most one submission of the poll list on the page is in flight at a
    time (polls with non-empty identifiers). *)
Theorem marker_cleared_per_instance :
  (forall (B : Type)
          (respond : forall R : Type, Request R -> B -> Response R * B)
          (b : B) (f : Frontend) (u : User) (pollId optionId : string),
      user (store f) = Some u ->
      truthy (marker f) = false ->
      let r := run respond (invoke f pollId optionId) b f in
      marker (frontend_after r) = None /\ outcome r = Returned tt)
  /\ (forall (p : PageState) (n : nat) (answer : Oracle) (s : Suspended),
        pageReachable p ->
        nth_error (outstanding (page_client p)) n = Some s ->
        isVoteSubmission (kindOf s) = true ->
        let p' := pageStep (Resolved n answer) p in
        List.length (submissions (page_client p')) =
          List.length (submissions (page_client p))
        \/ marker (ui (page_client p')) = None)
  /\ (forall p : PageState,
        pageReachable p ->
        submissions (page_client p) = [] -> marker (ui (page_client p)) = None)
  /\ (forall p : PageState,
        pageReachableKeyed p -> List.length (submissions (page_client p)) <= 1).
Proof.
  split; [|split; [|split]].
  - intros B respond b f u pollId optionId Hu Hm.
    apply (submission_clears_marker B respond b f u pollId optionId Hu Hm).
  - intros p n answer s Hp Hn Hkind.
    destruct (pageReachable_invariant p Hp) as [[Hd _] _].
    pose proof (resumed_submission_clears_marker (page_client p) n answer s
                  Hd Hn Hkind) as H.
    unfold pageStep, pageAct, remount.
    destruct (mounted p);
      destruct (mounted (withClient (step (Resolve n answer)) p));
      try exact H; right; reflexivity.
  - intros p Hp. apply (pageReachable_invariant p Hp).
  - intros p Hp.
    destruct (pageReachableKeyed_invariant p Hp) as [[_ [_ Hs]] _].
    apply (Hs eq_refl).
Qed.

(** C7, amended, at concrete inputs: the vote of alice for Blue, run to
    completion, and the page after her click on Red. *)
Lemma marker_cleared_per_instance_witness :
  let p := pageSteps aliceClicksRed initialPage in
  marker (frontend_after
            (run serve (invoke aliceBrowsing "p1" "blue") (reliable colours)
               aliceBrowsing)) = None
  /\ pageReachableKeyed p
  /\ List.length (submissions (page_client p)) <= 1
  /\ (List.length (submissions (page_client (pageStep (Resolved 0 unavailable) p)))
      = List.length (submissions (page_client p))
      \/ marker (ui (page_client (pageStep (Resolved 0 unavailable) p))) = None).
Proof.
  destruct marker_cleared_per_instance as [Hrun [Hdone [_ Hone]]].
  assert (Hk : pageReachableKeyed (pageSteps aliceClicksRed initialPage)).
  { unfold aliceClicksRed, aliceArrives, pageSteps. cbn [fold_left app].
    repeat (apply keyed_step; [|vm_compute; repeat constructor]).
    apply keyed_initial. }
  split; [|split; [exact Hk | split]].
  - apply (Hrun Server serve (reliable colours) aliceBrowsing alice
             "p1" "blue"); reflexivity.
  - apply Hone, Hk.
  - eapply (Hdone (pageSteps aliceClicksRed initialPage) 0 unavailable).
    + apply pageReachable_steps. constructor.
    + reflexivity.
    + reflexivity.
Defined.

(** ** The guard at an empty identifier *)

(** The guard of [handleVote] tests the truthiness of the marker, and the
    empty string is falsy.  Were a poll to have the empty string as its
    identifier, the marker of its submission would not turn a second
    invocation away.  This is why the statements above on the submissions
    in flight are about polls with non-empty identifiers. *)
Lemma empty_marker_not_rejected :
  let c := steps firstClick initialClient in
  let r := run (stateless obliging) (invoke (ui c) "p2" "o2") tt (ui c) in
  List.length (submissions c) = 1
  /\ votingInProgress (component (ui c)) = Some ""
  /\ existsb isInsert (events r) = true.
Proof. repeat split. Qed.

(** * More of the code *)

(** ** [handleVote]: the order of the requests and the failure paths *)

Section VoteRuns.

Variable B : Type.
Variable respond : forall R : Type, Request R -> B -> Response R * B.

Ltac replies :=
  repeat match goal with
         | |- context [respond ?R ?q ?b] =>
             let d := fresh "d" in
             let e := fresh "e" in
             let b' := fresh "b" in
             destruct (respond R q b) as [[d|e] b']; simpl;
             try match type of d with
                 | option _ => destruct d; simpl
                 | unit => destruct d; simpl
                 end
         end.

(** X1: the requests of one invocation of [handleVote] are determined by
    the answers of the backend, in this order: the existence check for the
    poll and the user; then, exactly when the check found no vote, the
    insert for the poll, the option and the user; then, exactly when the
    insert succeeded, the composite read.  A signed-out invocation and one
    that finds the marker truthy send none. *)
Theorem handleVote_requests_in_order (b : B) (f : Frontend)
    (pollId optionId : string) :
  let sent := filter isRequest
                (events (run respond (invoke f pollId optionId) b f)) in
  match user (store f) with
  | None => sent = []
  | Some u =>
      if truthy (votingInProgress (component f)) then sent = []
      else
        let check := respond _ (SelectVote pollId (user_id u)) b in
        match fst check with
        | Data None =>
            let insert :=
              respond _ (InsertVote pollId optionId (user_id u)) (snd check) in
            match fst insert with
            | Data _ =>
                sent =
                  [ Requested (SelectVote pollId (user_id u)) (Data None);
                    Requested (InsertVote pollId optionId (user_id u))
                      (fst insert);
                    Requested SelectPolls
                      (fst (respond _ SelectPolls (snd insert))) ]
            | Failure _ =>
                sent =
                  [ Requested (SelectVote pollId (user_id u)) (Data None);
                    Requested (InsertVote pollId optionId (user_id u))
                      (fst insert) ]
            end
        | found_or_failed =>
            sent = [ Requested (SelectVote pollId (user_id u)) found_or_failed ]
        end
  end.
Proof.
  unfold invoke, handleVote.
  destruct (user (store f)) as [u|]; [|reflexivity].
  destruct (truthy (votingInProgress (component f))); simpl; [reflexivity|].
  destruct (respond _ (SelectVote pollId (user_id u)) b) as [[[v|]|e] b1];
    simpl; try reflexivity.
  destruct (respond _ (InsertVote pollId optionId (user_id u)) b1)
    as [[[]|e] b2]; simpl; [|reflexivity].
  destruct (respond _ SelectPolls b2) as [[d|e] b3]; reflexivity.
Qed.

(** X2: when the existence check or the insert of an invocation fails, the
    user gets the vote-failure toast and no success toast, no composite
    read is sent, the polls, the loading flag and the error of the
    component are as before, and the marker is cleared. *)
Theorem failed_vote_changes_nothing (b : B) (f : Frontend)
    (pollId optionId : string) :
  existsb (fun e => requestFailed e && negb (isFetch e))
    (events (run respond (invoke f pollId optionId) b f)) = true ->
  let r := run respond (invoke f pollId optionId) b f in
  existsb (isToastError failedToVote) (events r) = true
  /\ existsb isToastSuccess (events r) = false
  /\ existsb isFetch (events r) = false
  /\ polls (component (frontend_after r)) = polls (component f)
  /\ loading (component (frontend_after r)) = loading (component f)
  /\ error (component (frontend_after r)) = error (component f)
  /\ votingInProgress (component (frontend_after r)) = None.
Proof.
  unfold invoke, handleVote.
  destruct (user (store f)) as [u|]; simpl; [|discriminate].
  destruct (truthy (votingInProgress (component f))); simpl; [discriminate|].
  replies; try discriminate; intros _; repeat split.
Qed.

(** X3: an insert that succeeded is always reported by the success toast
    and never by the vote-failure toast, whatever becomes of the re-fetch;
    when the re-fetch fails, the component shows the error panel of the
    poll list, and the marker is cleared all the same. *)
Theorem inserted_vote_reported_success (b : B) (f : Frontend)
    (pollId optionId : string) (now : Z) :
  existsb (fun e => isInsert e && succeeded e)
    (events (run respond (invoke f pollId optionId) b f)) = true ->
  let r := run respond (invoke f pollId optionId) b f in
  existsb isToastSuccess (events r) = true
  /\ existsb (isToastError failedToVote) (events r) = false
  /\ votingInProgress (component (frontend_after r)) = None
  /\ (existsb (fun e => isFetch e && requestFailed e) (events r) = true ->
      render now (store (frontend_after r)) (component (frontend_after r)) =
        ErrorPanel failedToLoad "Try Again" fetchPolls
      /\ polls (component (frontend_after r)) = polls (component f)).
Proof.
  unfold invoke, handleVote.
  destruct (user (store f)) as [u|]; simpl; [|discriminate].
  destruct (truthy (votingInProgress (component f))); simpl; [discriminate|].
  replies; try discriminate; intros _; repeat split; try discriminate.
Qed.

(** X4: the functions of the poll list never touch the session store, and
    the session handler never calls a setter of the poll list: whatever the
    backend answers, [fetchPolls], [handleVote] and the status callback
    call no mutator of the store and leave it as it was, and
    [onAuthStateChange] calls none of [setPolls], [setLoading], [setError]
    and [setVotingInProgress]. *)
Theorem store_and_component_kept_apart (b : B) (f : Frontend) :
  (let r := run respond fetchPolls b f in
   store (frontend_after r) = store f
   /\ existsb callsStore (events r) = false)
  /\ (forall pollId optionId,
        let r := run respond (invoke f pollId optionId) b f in
        store (frontend_after r) = store f
        /\ existsb callsStore (events r) = false)
  /\ (forall status,
        let r := run respond (onSubscriptionStatus status) b f in
        frontend_after r = f
        /\ existsb callsStore (events r) = false
        /\ existsb callsSetter (events r) = false)
  /\ (forall event session,
        existsb callsSetter
          (events (run respond (onAuthStateChange event session) b f))
        = false).
Proof.
  split; [|split; [|split]].
  - simpl. replies; split; reflexivity.
  - intros pollId optionId. unfold invoke, handleVote.
    destruct (user (store f)) as [u|]; simpl; [|split; reflexivity].
    destruct (truthy (votingInProgress (component f))); simpl;
      [split; reflexivity|].
    replies; split; reflexivity.
  - intros status. unfold onSubscriptionStatus.
    destruct (String.eqb status "SUBSCRIPTION_ERROR"); repeat split.
  - intros event session. unfold onAuthStateChange.
    destruct (String.eqb event "SIGNED_OUT"); simpl; [reflexivity|].
    destruct (sessionUser session); simpl; [|reflexivity].
    replies; reflexivity.
Qed.

End VoteRuns.

(** X2, at a concrete input: alice votes for Blue and the existence check
    is dropped by the network. *)
Lemma failed_vote_changes_nothing_witness :
  let r := run serve (invoke aliceBrowsing "p1" "blue")
             (mkServer colours [true] []) aliceBrowsing in
  existsb (isToastError failedToVote) (events r) = true
  /\ existsb isFetch (events r) = false
  /\ polls (component (frontend_after r)) = polls (component aliceBrowsing)
  /\ votingInProgress (component (frontend_after r)) = None.
Proof.
  destruct (failed_vote_changes_nothing Server serve
              (mkServer colours [true] []) aliceBrowsing "p1" "blue" eq_refl)
    as [H1 [_ [H3 [H4 [_ [_ H7]]]]]].
  repeat split; assumption.
Defined.

(** X3, at a concrete input: the vote of alice for Blue is inserted and the
    re-fetch is dropped by the network. *)
Lemma inserted_vote_reported_success_witness :
  let r := run serve (invoke aliceBrowsing "p1" "blue")
             (mkServer colours [false; false; true] ["v7"]) aliceBrowsing in
  existsb isToastSuccess (events r) = true
  /\ existsb (isToastError failedToVote) (events r) = false
  /\ render 1000%Z (store (frontend_after r)) (component (frontend_after r)) =
       ErrorPanel failedToLoad "Try Again" fetchPolls.
Proof.
  destruct (inserted_vote_reported_success Server serve
              (mkServer colours [false; false; true] ["v7"]) aliceBrowsing
              "p1" "blue" 1000%Z eq_refl)
    as [H1 [H2 [_ H4]]].
  split; [exact H1|]. split; [exact H2|].
  exact (proj1 (H4 eq_refl)).
Defined.

(** ** No handler leaves an exception uncaught *)

Ltac calm :=
  simpl;
  repeat match goal with
         | |- True => exact Logic.I
         | |- neverCrashes _ _ _ _ => intros ?; reflexivity
         | |- _ /\ _ => split
         | |- forall r : Response _, _ =>
             let d := fresh "d" in
             let e := fresh "e" in
             intros [d|e]; simpl;
             try match type of d with
                 | option string => destruct d; simpl
                 | unit => destruct d; simpl
                 end
         end.

Lemma fetchPolls_calm : every_resumption neverCrashes fetchPolls.
Proof. calm. Qed.

Lemma handleVote_calm (u : option User) (m : option string)
    (pollId optionId : string) :
  every_resumption neverCrashes (handleVote u m pollId optionId).
Proof.
  unfold handleVote. destruct u as [u|]; [destruct (truthy m)|]; calm.
Qed.

Lemma onAuthStateChange_calm (event : string) (session : option AuthSession) :
  every_resumption neverCrashes (onAuthStateChange event session).
Proof.
  unfold onAuthStateChange.
  destruct (String.eqb event "SIGNED_OUT"); [|destruct (sessionUser session)];
    calm.
Qed.

Lemma reachable_calm (c : Client) :
  reachable c -> invariant (fun _ => True) neverCrashes c.
Proof.
  apply reachable_invariant.
  - intros R q r t _ f _. exact Logic.I.
  - split; [intros f _; exact Logic.I | exact fetchPolls_calm].
  - intros u m pollId optionId.
    split; [intros f _; exact Logic.I | apply handleVote_calm].
  - intros event session.
    split; [intros f _; exact Logic.I | apply onAuthStateChange_calm].
  - exact Logic.I.
Qed.

(** X5: no handler leaves an exception uncaught.  Whatever the backend
    answers, a run of [fetchPolls], of [handleVote], of [onAuthStateChange]
    or of the status callback returns normally; and in the event loop no
    task in flight, resumed with whatever response in whatever state, ends
    its segment by an uncaught exception. *)
Theorem handlers_never_crash :
  (forall (B : Type)
          (respond : forall R : Type, Request R -> B -> Response R * B)
          (b : B) (f : Frontend),
      outcome (run respond fetchPolls b f) = Returned tt
      /\ (forall pollId optionId,
            outcome (run respond (invoke f pollId optionId) b f) = Returned tt)
      /\ (forall event session,
            outcome (run respond (onAuthStateChange event session) b f)
            = Returned tt)
      /\ (forall status,
            outcome (run respond (onSubscriptionStatus status) b f)
            = Returned tt))
  /\ (forall (c : Client) (n : nat) (answer : Oracle),
        reachable c ->
        match nth_error (outstanding c) n with
        | Some (Suspend _ q k) => forall f, crashes (k (answer _ q)) f = false
        | None => True
        end).
Proof.
  split.
  - intros B respond b f. split; [|split; [|split]].
    + simpl. destruct (respond _ SelectPolls b) as [[d|e] b']; reflexivity.
    + intros pollId optionId. unfold invoke, handleVote.
      destruct (user (store f)) as [u|]; simpl; [|reflexivity].
      destruct (truthy (votingInProgress (component f))); simpl;
        [reflexivity|].
      destruct (respond _ (SelectVote pollId (user_id u)) b)
        as [[[v|]|e] b1]; simpl; try reflexivity.
      destruct (respond _ (InsertVote pollId optionId (user_id u)) b1)
        as [[[]|e] b2]; simpl; try reflexivity.
      destruct (respond _ SelectPolls b2) as [[d|e] b3]; reflexivity.
    + intros event session. unfold onAuthStateChange.
      destruct (String.eqb event "SIGNED_OUT"); simpl; [reflexivity|].
      destruct (sessionUser session) as [u|]; simpl; [|reflexivity].
      destruct (respond _ (SelectProfile (user_id u)) b) as [[d|e] b'];
        reflexivity.
    + intros status. unfold onSubscriptionStatus.
      destruct (String.eqb status "SUBSCRIPTION_ERROR"); reflexivity.
  - intros c n answer Hc. destruct (reachable_calm c Hc) as [_ Ho].
    destruct (nth_error (outstanding c) n) as [[kind R q k]|] eqn:Hn;
      [|exact Logic.I].
    assert (Hs : resumable neverCrashes (Suspend kind q k)).
    { rewrite Forall_forall in Ho. apply Ho. apply (nth_error_In _ _ Hn). }
    destruct (Hs (answer R q)) as [Hp _]. exact Hp.
Qed.

(** X5, at a concrete input: the submission of alice, resumed by a failure
    of the existence check. *)
Lemma handlers_never_crash_witness :
  reachable aliceClicked
  /\ match nth_error (outstanding aliceClicked) 0 with
     | Some (Suspend _ q k) =>
         forall f, crashes (k (unavailable _ q)) f = false
     | None => True
     end.
Proof.
  assert (H : reachable aliceClicked) by (repeat constructor).
  split; [exact H|].
  apply (proj2 handlers_never_crash aliceClicked 0 unavailable H).
Defined.

(** ** [fetchPolls]: what the list shows after and during a fetch *)

Ltac applies :=
  simpl;
  repeat match goal with
         | |- True => exact Logic.I
         | |- appliesFetch _ _ _ _ =>
             let H := fresh "H" in
             intros ? H ?; simpl in H;
             first [ discriminate H
                   | injection H as <-; simpl; repeat split ]
         | |- _ /\ _ => split
         | |- forall r : Response _, _ =>
             let d := fresh "d" in
             let e := fresh "e" in
             intros [d|e]; simpl;
             try match type of d with
                 | option string => destruct d; simpl
                 | unit => destruct d; simpl
                 end
         end.

Lemma fetchPolls_applies : every_resumption appliesFetch fetchPolls.
Proof. applies. Qed.

Lemma handleVote_applies (u : option User) (m : option string)
    (pollId optionId : string) :
  every_resumption appliesFetch (handleVote u m pollId optionId).
Proof.
  unfold handleVote. destruct u as [u|]; [destruct (truthy m)|]; applies.
Qed.

Lemma onAuthStateChange_applies (event : string)
    (session : option AuthSession) :
  every_resumption appliesFetch (onAuthStateChange event session).
Proof.
  unfold onAuthStateChange.
  destruct (String.eqb event "SIGNED_OUT"); [|destruct (sessionUser session)];
    applies.
Qed.

Lemma reachable_applies (c : Client) :
  reachable c -> invariant (fun _ => True) appliesFetch c.
Proof.
  apply reachable_invariant.
  - intros R q r t _ f _. exact Logic.I.
  - split; [intros f _; exact Logic.I | exact fetchPolls_applies].
  - intros u m pollId optionId.
    split; [intros f _; exact Logic.I | apply handleVote_applies].
  - intros event session.
    split; [intros f _; exact Logic.I | apply onAuthStateChange_applies].
  - exact Logic.I.
Qed.

(** X6: a composite read that succeeds replaces the polls and clears the
    loading flag, and leaves the error as it was: the error is cleared at
    the start of a fetch only.  So a fetch that runs with no other in
    between ends on the grid of the polls just read, or on the "no polls"
    notice when there is none or the response carried no data.  In the
    event loop, where fetches overlap, the view after the successful
    response is that grid or notice when the error was null, and the error
    panel, over the polls just read, when another fetch has failed in the
    meantime. *)
Theorem successful_fetch_shows_polls :
  (forall (B : Type)
          (respond : forall R : Type, Request R -> B -> Response R * B)
          (b : B) (f : Frontend) (d : option (list Poll)) (now : Z),
      fst (respond _ SelectPolls b) = Data d ->
      let f' := frontend_after (run respond fetchPolls b f) in
      error (component f') = None
      /\ loading (component f') = false
      /\ votingInProgress (component f') = votingInProgress (component f)
      /\ render now (store f') (component f') =
           match or_empty d with
           | [] => NoPolls
           | _ => PollGrid (map (renderPoll now (store f') (component f'))
                              (or_empty d))
           end)
  /\ (forall (c : Client) (n : nat) (answer : Oracle)
             (d : option (list Poll)) (now : Z),
        reachable c ->
        deliveredBy (Resolve n answer) c = Some d ->
        let c' := step (Resolve n answer) c in
        let st' := component (ui c') in
        polls st' = or_empty d
        /\ loading st' = false
        /\ error st' = error (component (ui c))
        /\ render now (store (ui c')) st' =
             match error (component (ui c)) with
             | Some m => ErrorPanel m "Try Again" fetchPolls
             | None =>
                 match or_empty d with
                 | [] => NoPolls
                 | _ => PollGrid (map (renderPoll now (store (ui c')) st')
                                    (or_empty d))
                 end
             end).
Proof.
  split.
  - intros B respond b f d now H. simpl. rewrite H. simpl. repeat split.
  - intros c n answer d now Hc Hd. simpl in Hd. simpl.
    destruct (nth_error (outstanding c) n) as [[kind R q k]|] eqn:Hn;
      [|discriminate].
    destruct (reachable_applies c Hc) as [_ Ho].
    destruct (reachable_settled c Hc) as [Hs _].
    assert (Hk : resumable appliesFetch (Suspend kind q k)).
    { rewrite Forall_forall in Ho. apply Ho. apply (nth_error_In _ _ Hn). }
    destruct (Hk (answer R q)) as [Hp _].
    specialize (Hp d Hd (ui c)). simpl in Hp. destruct Hp as [H1 [H2 H3]].
    unfold schedule. cbn [ui].
    split; [exact H1|]. split; [exact H2|]. split; [exact H3|].
    unfold render. rewrite H2, H3, H1.
    destruct (error (component (ui c))) as [m|] eqn:He; [|reflexivity].
    destruct (Hs m He) as [-> _]. reflexivity.
Qed.

(** X6, at a concrete input: the fetch of the mount and the fetch of a
    change notification overlap; the first fails, then the second succeeds
    with the poll "Favorite color": the polls are replaced and the error
    panel stays. *)
Lemma successful_fetch_shows_polls_witness :
  let c := steps [ AuthStateChange "SIGNED_IN" (Some (mkSession (Some alice)));
                   Resolve 0 honest;
                   Mount;
                   ChangeNotification;
                   Resolve 0 unavailable ] initialClient in
  let c' := step (Resolve 0 honest) c in
  reachable c
  /\ deliveredBy (Resolve 0 honest) c = Some (Some (fetchAll colours))
  /\ polls (component (ui c')) = fetchAll colours
  /\ render 1000%Z (store (ui c')) (component (ui c')) =
       ErrorPanel failedToLoad "Try Again" fetchPolls.
Proof.
  assert (Hc : reachable
                 (steps [ AuthStateChange "SIGNED_IN"
                            (Some (mkSession (Some alice)));
                          Resolve 0 honest;
                          Mount;
                          ChangeNotification;
                          Resolve 0 unavailable ] initialClient))
    by (apply reachable_steps; constructor).
  split; [exact Hc|]. split; [reflexivity|].
  destruct (proj2 successful_fetch_shows_polls _ 0 honest
              (Some (fetchAll colours)) 1000%Z Hc eq_refl)
    as [H1 [_ [_ H2]]].
  split; [exact H1 | exact H2].
Defined.

(** X7: every start of a fetch, at the mount, on a change notification of
    the backend or from the retry action, replaces the whole list by the
    spinner until a response arrives, and while the spinner shows no click
    on an option starts anything. *)
Theorem fetch_start_shows_spinner (c : Client) (now : Z) :
  (forall i,
     i = Mount \/ i = ChangeNotification ->
     render now (store (ui (step i c))) (component (ui (step i c))) =
       Spinner "Loading polls..."
     /\ forall now' card button,
          step (ClickOption now' card button) (step i c) = step i c)
  /\ (forall message,
        error (component (ui c)) = Some message ->
        truthy_string message = true ->
        loading (component (ui c)) = false ->
        render now (store (ui (step (ClickTryAgain now) c)))
          (component (ui (step (ClickTryAgain now) c))) =
          Spinner "Loading polls...").
Proof.
  split.
  - intros i [-> | ->]; split; try reflexivity; intros; reflexivity.
  - intros message He Ht Hl.
    assert (Hr : render now (store (ui c)) (component (ui c)) =
                 ErrorPanel message "Try Again" fetchPolls)
      by (unfold render; rewrite Hl, He, Ht; reflexivity).
    unfold step. rewrite Hr. reflexivity.
Qed.

(** X7, at a concrete input: a change notification while alice looks at the
    loaded list. *)
Lemma fetch_start_shows_spinner_witness :
  let c := step (Resolve 0 honest) (step Mount initialClient) in
  render 1000%Z (store (ui (step ChangeNotification c)))
    (component (ui (step ChangeNotification c))) = Spinner "Loading polls..."
  /\ step (ClickOption 1000%Z 0 0) (step ChangeNotification c) =
     step ChangeNotification c.
Proof.
  destruct (proj1 (fetch_start_shows_spinner
                     (step (Resolve 0 honest) (step Mount initialClient))
                     1000%Z) ChangeNotification (or_intror eq_refl))
    as [H1 H2].
  split; [exact H1 | apply H2].
Defined.

(** ** The render of a poll card *)

Lemma voted_option_counts (u : option User) (poll : Poll) (o : PollOption) :
  In o (poll_options poll) ->
  hasUserVotedForThis u o = true -> hasVoted u poll = true.
Proof.
  intros Hin. destruct u as [u|]; simpl; [|discriminate].
  intros H. apply existsb_exists. exists o. split; assumption.
Qed.

Lemma selected_voted (now : Z) (s : AuthStore) (st : PollListState)
    (poll : Poll) (o : PollOption) :
  button_style (renderOption now s st poll o) = Selected ->
  hasUserVotedForThis (user s) o = true.
Proof.
  simpl. destruct (hasUserVotedForThis (user s) o); [reflexivity|].
  destruct (isPollActive now poll && present (user s)); discriminate.
Qed.

(** X8: when a button of a poll card is marked selected, the card is closed
    to the viewer: every button of the card is disabled, every button shows
    its tally, the tallies being the numbers of votes of the options, and
    the results chart is shown. *)
Theorem selected_button_closes_card (now : Z) (s : AuthStore)
    (st : PollListState) (poll : Poll) (btn : OptionButton) :
  In btn (card_buttons (renderPoll now s st poll)) ->
  button_style btn = Selected ->
  hasVoted (user s) poll = true
  /\ (forall btn', In btn' (card_buttons (renderPoll now s st poll)) ->
                   button_disabled btn' = true)
  /\ map button_tally (card_buttons (renderPoll now s st poll)) =
     map (fun o => Some (List.length (option_votes o))) (poll_options poll)
  /\ card_chart (renderPoll now s st poll) = Some (data poll).
Proof.
  intros Hin Hsel. simpl in Hin. apply in_map_iff in Hin.
  destruct Hin as [o [<- Ho]].
  assert (Hv : hasVoted (user s) poll = true)
    by (apply (voted_option_counts _ _ o Ho), (selected_voted _ _ _ _ _ Hsel)).
  split; [exact Hv|]. split; [|split].
  - intros btn' Hin'. simpl in Hin'. apply in_map_iff in Hin'.
    destruct Hin' as [o' [<- _]]. simpl. unfold disabled. rewrite Hv.
    rewrite orb_true_r. reflexivity.
  - simpl. rewrite map_map. apply map_ext. intros o'. simpl.
    unfold resultsVisible. rewrite Hv, orb_true_r. reflexivity.
  - simpl. unfold resultsVisible. rewrite Hv, orb_true_r. simpl.
    unfold data. rewrite length_map.
    destruct (poll_options poll); [contradiction Ho | reflexivity].
Qed.

(** X8, at a concrete input: alice looks at the poll "Favorite color" after
    her vote for Red. *)
Lemma selected_button_closes_card_witness :
  exists btn,
    In btn (card_buttons
              (renderPoll 1000%Z aliceSignedIn initialState favoriteColor))
    /\ button_style btn = Selected
    /\ map button_tally
         (card_buttons
            (renderPoll 1000%Z aliceSignedIn initialState favoriteColor))
       = [Some 1; Some 0].
Proof.
  eexists. split; [left; reflexivity|]. split; [reflexivity|].
  exact (proj1 (proj2 (proj2
           (selected_button_closes_card 1000%Z aliceSignedIn initialState
              favoriteColor _ (or_introl eq_refl) eq_refl)))).
Defined.

(** X9: the results chart and the tallies of a card never disagree: when the
    chart is shown it is not empty and its entries are, in order, the texts
    and the tallies the buttons show; when it is hidden, the poll has no
    option or no button shows a tally. *)
Theorem chart_agrees_with_tallies (now : Z) (s : AuthStore)
    (st : PollListState) (poll : Poll) :
  match card_chart (renderPoll now s st poll) with
  | Some d =>
      d <> []
      /\ map (fun b => (button_text b, button_tally b))
           (card_buttons (renderPoll now s st poll))
         = map (fun e => (fst e, Some (snd e))) d
  | None =>
      poll_options poll = []
      \/ Forall (fun b => button_tally b = None)
           (card_buttons (renderPoll now s st poll))
  end.
Proof.
  simpl. unfold data. rewrite length_map.
  destruct (resultsVisible s poll) eqn:Hv; simpl.
  - destruct (poll_options poll) as [|o os] eqn:Ho; simpl.
    + left. reflexivity.
    + split; [discriminate|]. rewrite Hv. f_equal.
      rewrite !map_map. apply map_ext. intros o'. simpl. rewrite Hv.
      reflexivity.
  - right. apply Forall_forall. intros b Hb. apply in_map_iff in Hb.
    destruct Hb as [o [<- _]]. simpl. rewrite Hv. reflexivity.
Qed.

(** X10: an enabled button always invites the vote: it has the hover style,
    it is not the selected one, a user is present and the poll is open; and
    it shows a tally to an administrator only. *)
Theorem enabled_button_invites_vote (now : Z) (s : AuthStore)
    (st : PollListState) (poll : Poll) (o : PollOption) :
  In o (poll_options poll) ->
  button_disabled (renderOption now s st poll o) = false ->
  button_style (renderOption now s st poll o) = Hoverable
  /\ present (user s) = true
  /\ isPollActive now poll = true
  /\ button_tally (renderOption now s st poll o) =
     (if isAdmin s then Some (List.length (option_votes o)) else None).
Proof.
  intros Ho. simpl. unfold disabled, resultsVisible.
  destruct (present (user s)) eqn:Hu; simpl; [|discriminate].
  destruct (hasVoted (user s) poll) eqn:Hv; simpl; [discriminate|].
  destruct (isPollActive now poll); simpl; [|discriminate].
  intros _.
  destruct (hasUserVotedForThis (user s) o) eqn:Hs.
  - rewrite (voted_option_counts _ _ _ Ho Hs) in Hv. discriminate.
  - rewrite orb_false_r. repeat split.
Qed.

(** X10, at a concrete input: alice and the option Blue before any vote. *)
Lemma enabled_button_invites_vote_witness :
  button_disabled
    (renderOption 1000%Z aliceSignedIn initialState blueBallot blue) = false
  /\ button_style
       (renderOption 1000%Z aliceSignedIn initialState blueBallot blue)
     = Hoverable
  /\ button_tally
       (renderOption 1000%Z aliceSignedIn initialState blueBallot blue) = None.
Proof.
  split; [reflexivity|].
  destruct (enabled_button_invites_vote 1000%Z aliceSignedIn initialState
              blueBallot blue (or_intror (or_introl eq_refl)) eq_refl)
    as [H1 [_ [_ H2]]].
  split; [exact H1 | exact H2].
Defined.

(** X11: in a poll that is not open (its end time has passed, is invalid,
    or the poll was deactivated) every button is disabled for every viewer
    and none has the hover style, and the badge of the card says ended. *)
Theorem closed_poll_takes_no_vote (now : Z) (s : AuthStore)
    (st : PollListState) (poll : Poll) :
  isPollActive now poll = false ->
  card_active (renderPoll now s st poll) = false
  /\ forall btn, In btn (card_buttons (renderPoll now s st poll)) ->
                 button_disabled btn = true
                 /\ button_style btn <> Hoverable.
Proof.
  intros Ha. split; [exact Ha|]. intros btn Hin. simpl in Hin.
  apply in_map_iff in Hin. destruct Hin as [o [<- _]]. simpl.
  unfold disabled. rewrite Ha. simpl. split.
  - rewrite orb_true_r. reflexivity.
  - destruct (hasUserVotedForThis (user s) o); discriminate.
Qed.

(** X11, at a concrete input: the deactivated poll, seen by alice. *)
Lemma closed_poll_takes_no_vote_witness :
  isPollActive 1000%Z deactivated = false
  /\ forall btn,
       In btn (card_buttons
                 (renderPoll 1000%Z aliceSignedIn initialState deactivated)) ->
       button_disabled btn = true /\ button_style btn <> Hoverable.
Proof.
  split; [reflexivity|].
  exact (proj2 (closed_poll_takes_no_vote 1000%Z aliceSignedIn initialState
                  deactivated eq_refl)).
Defined.

(** X12: the grid follows the poll collection: the cards are those of the
    polls, in order, and the [j]-th button of the [i]-th card shows the text
    of the [j]-th option of the [i]-th poll and calls [handleVote] with the
    identifiers of that poll and of that option. *)
Theorem grid_follows_collection (now : Z) (s : AuthStore)
    (st : PollListState) (cards : list PollCard) :
  render now s st = PollGrid cards ->
  map card_key cards = map poll_id (polls st)
  /\ forall i j card btn,
       nth_error cards i = Some card ->
       nth_error (card_buttons card) j = Some btn ->
       exists poll o,
         nth_error (polls st) i = Some poll
         /\ nth_error (poll_options poll) j = Some o
         /\ button_poll btn = poll_id poll
         /\ button_option btn = option_id o
         /\ button_text btn = option_text o
         /\ click s st btn =
            if button_disabled btn then Ret tt
            else handleVote (user s) (votingInProgress st) (poll_id poll)
                   (option_id o).
Proof.
  intros Hr.
  assert (Hc : cards = map (renderPoll now s st) (polls st)).
  { unfold render in Hr. destruct (loading st); [discriminate|].
    destruct (error st) as [m|]; [destruct (truthy_string m); [discriminate|]|];
      destruct (polls st); try discriminate; injection Hr as <-; reflexivity. }
  subst cards. split.
  - rewrite map_map. reflexivity.
  - intros i j card btn Hi Hj. rewrite nth_error_map in Hi.
    destruct (nth_error (polls st) i) as [poll|] eqn:Hp; [|discriminate].
    injection Hi as <-. simpl in Hj. rewrite nth_error_map in Hj.
    destruct (nth_error (poll_options poll) j) as [o|] eqn:Ho; [|discriminate].
    injection Hj as <-. exists poll, o. repeat split. exact Ho.
Qed.

(** X12, at a concrete input: the grid alice sees before any vote. *)
Lemma grid_follows_collection_witness :
  exists cards,
    render 1000%Z (store aliceBrowsing) (component aliceBrowsing)
    = PollGrid cards
    /\ map card_key cards = ["p1"].
Proof.
  eexists. split; [reflexivity|].
  exact (proj1 (grid_follows_collection 1000%Z (store aliceBrowsing)
                  (component aliceBrowsing) _ eq_refl)).
Defined.

(** ** [App]: [initializeAuth] and [handleSignOut] *)

Section AppRuns.

Variable B : Type.
Variable respond : forall R : Type, AppRequest R -> B -> Response R * B.

(** X13: whatever the backend answers, [initializeAuth] returns normally
    with the loading flag of [App] cleared, after one request (the session)
    or two (the session, then the profile), and without touching the state
    of the poll list. *)
Theorem initializeAuth_always_finishes (b : B) (s : AppState) :
  let r := runApp respond initializeAuth b s in
  app_outcome r = Returned tt
  /\ app_loading (app_after r) = false
  /\ component (app_frontend (app_after r)) = component (app_frontend s)
  /\ exists r1,
       filter isAppRequest (app_events r) = [AppRequested GetSession r1]
       \/ exists session u r2,
            r1 = Data session
            /\ sessionUser session = Some u
            /\ filter isAppRequest (app_events r) =
               [ AppRequested GetSession r1;
                 AppRequested (Query (SelectProfile (user_id u))) r2 ].
Proof.
  simpl. destruct (respond _ GetSession b) as [[session|e] b1]; simpl.
  - destruct (sessionUser session) as [u|] eqn:Hu; simpl.
    + destruct (respond _ (Query (SelectProfile (user_id u))) b1)
        as [[p|e] b2] eqn:Hp; simpl; repeat split;
        exists (Data session); right; exists session, u; eexists;
        (split; [reflexivity | split; [exact Hu | reflexivity]]).
    + repeat split. eexists. left. reflexivity.
  - repeat split. eexists. left. reflexivity.
Qed.

(** X14: what [initializeAuth] leaves in the store.  When the session or
    the profile fails to load, the store is signed out and the user gets
    the initialization toast; when there is no session, the store is left
    as it was, without a toast; when the session carries a user whose
    profile loads, the store holds that user with the administrator flag of
    the profile, false when the profile or its flag is null. *)
Theorem initializeAuth_store (b : B) (s : AppState) :
  let r := runApp respond initializeAuth b s in
  let toasted :=
    existsb (isAppToastError "Failed to initialize authentication")
      (app_events r) in
  match respond _ GetSession b with
  | (Failure _, _) =>
      store (app_frontend (app_after r)) = signedOut /\ toasted = true
  | (Data session, b1) =>
      match sessionUser session with
      | None =>
          store (app_frontend (app_after r)) = store (app_frontend s)
          /\ toasted = false
      | Some u =>
          match fst (respond _ (Query (SelectProfile (user_id u))) b1) with
          | Failure _ =>
              store (app_frontend (app_after r)) = signedOut
              /\ toasted = true
          | Data profile =>
              store (app_frontend (app_after r)) =
                mkAuthStore (Some u) (profileIsAdmin profile)
              /\ toasted = false
          end
      end
  end.
Proof.
  simpl. destruct (respond _ GetSession b) as [[session|e] b1]; simpl.
  - destruct (sessionUser session) as [u|]; simpl.
    + destruct (respond _ (Query (SelectProfile (user_id u))) b1)
        as [[p|e] b2]; simpl; split; reflexivity.
    + destruct s as [[st c] l]. split; reflexivity.
  - split; reflexivity.
Qed.

(** X15: [handleSignOut] resets the store exactly when the sign-out request
    succeeded, and then reports it by the success toast; when the request
    fails nothing at all is changed, the user stays signed in and gets the
    failure toast.  Either way it sends this one request and returns
    normally. *)
Theorem handleSignOut_resets_on_success (b : B) (s : AppState) :
  let r := runApp respond handleSignOut b s in
  app_outcome r = Returned tt
  /\ match fst (respond _ SignOut b) with
     | Data _ =>
         store (app_frontend (app_after r)) = signedOut
         /\ component (app_frontend (app_after r)) = component (app_frontend s)
         /\ app_loading (app_after r) = app_loading s
         /\ app_events r =
            [ AppRequested SignOut (fst (respond _ SignOut b));
              AppPerformed (Within StoreReset);
              AppPerformed (Within (ToastSuccess "Successfully signed out")) ]
     | Failure e =>
         app_after r = s
         /\ app_events r =
            [ AppRequested SignOut (Failure e);
              AppPerformed (Within (ConsoleError "Sign out error:"));
              AppPerformed
                (Within (ToastError "Failed to sign out. Please try again.")) ]
     end.
Proof.
  simpl. destruct (respond _ SignOut b) as [[[]|e] b1]; simpl.
  - repeat split.
  - destruct s as [[st c] l]. repeat split.
Qed.

End AppRuns.

(** ** [onAuthStateChange]: the paths with a user *)

(** X16: a sign-out event resets the store without any request, also when
    its session carries a user.  Any other notification that carries a user
    puts that user in the store at once, with the administrator flag the
    store held before, and asks for the profile; when the profile arrives
    the flag becomes that of the profile (false when the profile or its
    flag is null) without a toast, and when it fails the store is signed
    out. *)
Theorem onAuthStateChange_with_user (B : Type)
    (respond : forall R : Type, Request R -> B -> Response R * B)
    (b : B) (f : Frontend) (event : string) (session : option AuthSession)
    (u : User) :
  sessionUser session = Some u ->
  let r := run respond (onAuthStateChange event session) b f in
  let first := segment (onAuthStateChange event session) f in
  if String.eqb event "SIGNED_OUT"
  then events r = [Performed StoreReset]
       /\ store (frontend_after r) = signedOut
  else store (segment_frontend first) = mkAuthStore (Some u) (isAdmin (store f))
       /\ match fst (respond _ (SelectProfile (user_id u)) b) with
          | Data profile =>
              store (frontend_after r) =
                mkAuthStore (Some u) (profileIsAdmin profile)
              /\ events r =
                 [ Performed (StoreSetUser u);
                   Requested (SelectProfile (user_id u)) (Data profile);
                   Performed (StoreSetIsAdmin (profileIsAdmin profile)) ]
          | Failure e =>
              store (frontend_after r) = signedOut
              /\ existsb (isToastError "Failed to load user profile")
                   (events r) = true
          end.
Proof.
  intros Hu. unfold onAuthStateChange. rewrite Hu.
  destruct (String.eqb event "SIGNED_OUT"); simpl.
  - split; reflexivity.
  - split; [reflexivity|].
    destruct (respond _ (SelectProfile (user_id u)) b) as [[p|e] b'];
      simpl; split; reflexivity.
Qed.

(** X16, at a concrete input: alice signs in and her profile, an
    administrator's, arrives. *)
Lemma onAuthStateChange_with_user_witness :
  let f := mkFrontend signedOut initialState in
  let session := Some (mkSession (Some alice)) in
  store (segment_frontend (segment (onAuthStateChange "SIGNED_IN" session) f))
  = mkAuthStore (Some alice) false
  /\ store (frontend_after
              (run (stateless allAdmins)
                 (onAuthStateChange "SIGNED_IN" session) tt f))
     = mkAuthStore (Some alice) true.
Proof.
  destruct (onAuthStateChange_with_user unit (stateless allAdmins) tt
              (mkFrontend signedOut initialState) "SIGNED_IN"
              (Some (mkSession (Some alice))) alice eq_refl)
    as [H1 [H2 _]].
  split; [exact H1 | exact H2].
Defined.

(** ** [App]: what the page shows *)

(** X17: [App] shows poll cards to a signed-in user only.  With no user in
    the store it shows no card and no poll creation form, whatever the
    administrator flag; and every card it shows is the card of a poll of
    the collection whose chart, if shown, is shown because the user is an
    administrator or has voted on that poll, and whose buttons are disabled
    exactly by a vote of the user, a closed poll, or the marker naming the
    poll. *)
Theorem app_shows_polls_to_users_only (now : Z) (s : AppState) :
  let st := store (app_frontend s) in
  let cp := component (app_frontend s) in
  (user st = None ->
   shownCards (appRender now s) = []
   /\ forall nav pollList, appRender now s <> Page nav (Dashboard true pollList))
  /\ (forall card,
        In card (shownCards (appRender now s)) ->
        exists u poll,
          user st = Some u
          /\ In poll (polls cp)
          /\ card = renderPoll now st cp poll
          /\ (card_chart card <> None ->
              isAdmin st = true \/ hasVoted (Some u) poll = true)
          /\ forall btn, In btn (card_buttons card) ->
               button_disabled btn =
               hasVoted (Some u) poll || negb (isPollActive now poll)
               || strict_eq (votingInProgress cp) (poll_id poll)).
Proof.
  simpl. unfold appRender. split.
  - intros Hu. rewrite Hu. destruct (app_loading s); simpl;
      (split; [reflexivity | discriminate]).
  - intros card. destruct (app_loading s); simpl; [contradiction|].
    destruct (user (store (app_frontend s))) as [u|] eqn:Hu; simpl;
      [|contradiction].
    destruct (render now (store (app_frontend s)) (component (app_frontend s)))
      eqn:Hr; simpl; try contradiction.
    intros Hin.
    assert (Hc : cards = map (renderPoll now (store (app_frontend s))
                                (component (app_frontend s)))
                           (polls (component (app_frontend s)))).
    { unfold render in Hr.
      destruct (loading (component (app_frontend s))); [discriminate|].
      destruct (error (component (app_frontend s))) as [m|];
        [destruct (truthy_string m); [discriminate|]|];
        destruct (polls (component (app_frontend s))); try discriminate;
        injection Hr as <-; reflexivity. }
    subst cards. apply in_map_iff in Hin. destruct Hin as [poll [<- Hp]].
    exists u, poll. repeat split; try assumption.
    + simpl. unfold resultsVisible. rewrite Hu.
      destruct (isAdmin (store (app_frontend s))); simpl; [auto|].
      destruct (existsb (votedFor u) (poll_options poll)); simpl; [auto|].
      intros H. contradiction H. reflexivity.
    + intros btn Hb. simpl in Hb. apply in_map_iff in Hb.
      destruct Hb as [o [<- _]]. simpl. unfold disabled. rewrite Hu.
      reflexivity.
Qed.

(** X17, at a concrete input: the store without a user and with the
    administrator flag set, over a loaded poll list. *)
Lemma app_shows_polls_to_users_only_witness :
  let s := mkApp (mkFrontend staleAdmin
                    (mkState [favoriteColor] false None None)) false in
  user (store (app_frontend s)) = None
  /\ shownCards (appRender 1000%Z s) = []
  /\ appRender 1000%Z s = Page None SignInForm.
Proof.
  split; [reflexivity|].
  split; [|reflexivity].
  exact (proj1 (proj1 (app_shows_polls_to_users_only 1000%Z
                         (mkApp (mkFrontend staleAdmin
                                   (mkState [favoriteColor] false None None))
                            false)) eq_refl)).
Defined.

(** X18: after [initializeAuth], started with no user in the store, [App]
    never shows its spinner, and what it shows follows the answers of the
    backend: the sign-in form when the session request failed, when there
    is no session user, or when the read of the profile failed; otherwise
    the page of the user of the session, with the Admin badge and the poll
    creation form exactly when the profile returned says administrator. *)
Theorem after_initialization_view (B : Type)
    (respond : forall R : Type, AppRequest R -> B -> Response R * B)
    (b : B) (s : AppState) (now : Z) :
  user (store (app_frontend s)) = None ->
  let s' := app_after (runApp respond initializeAuth b s) in
  match respond _ GetSession b with
  | (Failure _, _) => appRender now s' = Page None SignInForm
  | (Data session, b1) =>
      match sessionUser session with
      | None => appRender now s' = Page None SignInForm
      | Some u =>
          match fst (respond _ (Query (SelectProfile (user_id u))) b1) with
          | Failure _ => appRender now s' = Page None SignInForm
          | Data profile =>
              appRender now s' =
                Page (Some (mkNav (user_email u) (profileIsAdmin profile)))
                  (Dashboard (profileIsAdmin profile)
                     (render now
                        (mkAuthStore (Some u) (profileIsAdmin profile))
                        (component (app_frontend s))))
          end
      end
  end.
Proof.
  intros Hu. simpl.
  destruct (respond _ GetSession b) as [[session|e] b1]; simpl.
  - destruct (sessionUser session) as [u|] eqn:Hs; simpl.
    + destruct (respond _ (Query (SelectProfile (user_id u))) b1)
        as [[p|e] b2]; simpl.
      * unfold appRender. simpl. destruct s as [[st c] l]. reflexivity.
      * reflexivity.
    + unfold appRender. simpl. rewrite Hu. reflexivity.
  - reflexivity.
Qed.

(** X18, at a concrete input: the application starts, finds the session of
    alice and reads her profile, which is not an administrator's. *)
Lemma after_initialization_view_witness :
  appRender 1000%Z
    (app_after (runApp (fun R (q : AppRequest R) (_ : unit) =>
                          (honestApp R q, tt))
                  initializeAuth tt initialApp))
  = Page (Some (mkNav "alice@example.org" false))
      (Dashboard false (Spinner "Loading polls...")).
Proof.
  exact (after_initialization_view unit
           (fun R (q : AppRequest R) (_ : unit) => (honestApp R q, tt))
           tt initialApp 1000%Z eq_refl).
Defined.

(** ** A second vote against the modelled backend *)

(** An invocation that inserted left the database with one more vote, of the
    user on the poll. *)
Lemma refetch_inserted (sv : Server) (f : Frontend) (u : User)
    (pollId optionId : string) :
  user (store f) = Some u ->
  existsb (fun e => isInsert e && succeeded e)
    (events (run serve (invoke f pollId optionId) sv f)) = true ->
  exists id,
    database (backend_after (run serve (invoke f pollId optionId) sv f)) =
    addVote (database sv) (mkVote id pollId optionId (user_id u)).
Proof.
  unfold invoke. intros ->. unfold handleVote.
  destruct (truthy (votingInProgress (component f))); simpl;
    [discriminate|].
  destruct sv as [db out ids].
  destruct out as [|[|] [|[|] [|[|] out]]]; unfold serve; simpl;
    destruct (findVote db pollId (user_id u)) eqn:Hfind; simpl;
    rewrite ?Hfind; simpl;
    try discriminate;
    intros _; eexists; reflexivity.
Qed.

Lemma findVote_addVote (db : Database) (v : Vote) :
  findVote (addVote db v) (vote_poll_id v) (vote_user_id v) <> None.
Proof.
  unfold findVote, addVote. simpl.
  induction (db_votes db) as [|w l IH]; simpl.
  - rewrite !String.eqb_refl. discriminate.
  - destruct (String.eqb (vote_poll_id w) (vote_poll_id v)
              && String.eqb (vote_user_id w) (vote_user_id v));
      [discriminate | exact IH].
Qed.

(** X19: against the backend modelled from the specification (an insert
    fails on a second vote of the user on the poll, a request may be
    dropped by the network): once an invocation of [handleVote] has
    inserted a vote of a user on a poll, no later invocation of that user
    on that poll, for whatever option and from whatever state of the
    component, sends an insert, and the database stays as the first insert
    left it. *)
Theorem second_vote_never_inserted (sv : Server) (f f2 : Frontend) (u : User)
    (pollId optionId optionId2 : string) (later : list bool) :
  user (store f) = Some u ->
  user (store f2) = Some u ->
  existsb (fun e => isInsert e && succeeded e)
    (events (run serve (invoke f pollId optionId) sv f)) = true ->
  let first := backend_after (run serve (invoke f pollId optionId) sv f) in
  let sv2 := mkServer (database first) later (identifiers first) in
  let r2 := run serve (invoke f2 pollId optionId2) sv2 f2 in
  existsb isInsert (events r2) = false
  /\ database (backend_after r2) = database first.
Proof.
  intros Hu Hu2 Hins.
  destruct (refetch_inserted sv f u pollId optionId Hu Hins) as [ids Hdb].
  simpl. rewrite Hdb.
  pose proof (findVote_addVote (database sv)
                (mkVote ids pollId optionId (user_id u))) as Hfind.
  simpl in Hfind.
  unfold invoke. rewrite Hu2. unfold handleVote.
  destruct (truthy (votingInProgress (component f2))); simpl;
    [split; reflexivity|].
  destruct later as [|[|] later]; unfold serve; simpl;
    destruct (findVote
                (addVote (database sv)
                   (mkVote ids pollId optionId (user_id u)))
                pollId (user_id u)) eqn:E;
    try (contradiction Hfind; reflexivity); simpl; split; reflexivity.
Qed.

(** X19, at a concrete input: alice votes for Blue, then clicks Red from a
    list that was not refreshed. *)
Lemma second_vote_never_inserted_witness :
  let first := backend_after
                 (run serve (invoke aliceBrowsing "p1" "blue")
                    (reliable colours) aliceBrowsing) in
  let r2 := run serve (invoke aliceBrowsing "p1" "red")
              (mkServer (database first) [] (identifiers first))
              aliceBrowsing in
  existsb isInsert (events r2) = false
  /\ existsb (isToastError "You have already voted on this poll") (events r2)
     = true.
Proof.
  split; [|reflexivity].
  exact (proj1 (second_vote_never_inserted (reliable colours) aliceBrowsing
                  aliceBrowsing alice "p1" "blue" "red" []
                  eq_refl eq_refl eq_refl)).
Defined.
